(** * SWL (Simple Window Library): a shallow embedding of [SWL.hpp]

    The header wraps the Win32 windowing API: [ApplicationException] records a
    description and the last platform error code, and [Application] registers a
    window class, creates a window, and routes the messages delivered to its
    window procedure to overridable hooks.

    The embedding has three layers:
    - [Module Win32]: the data of the platform interface (messages, paint
      structures, constants of the SDK headers), the state of a scripted
      platform, and a computation monad with exceptions and a call trace;
    - [Module SWL]: the functions of [SWL.hpp], written over that monad;
    - the theorems about them. *)

From stdpp Require Import base numbers option list strings pretty gmap.

Open Scope Z_scope.

(** ** Constants of the platform headers

    [SWL.hpp] names these through [Windows.h]; the values are those of the
    Windows SDK. *)
Module Const.
Definition WM_NULL : Z := 0x0000.
Definition WM_CREATE : Z := 0x0001.
Definition WM_PAINT : Z := 0x000F.
Definition WM_CLOSE : Z := 0x0010.
Definition WM_QUIT : Z := 0x0012.
Definition WM_NCCREATE : Z := 0x0081.
Definition WM_KEYDOWN : Z := 0x0100.
Definition WM_KEYUP : Z := 0x0101.
Definition WM_MOUSEMOVE : Z := 0x0200.
Definition WM_LBUTTONDOWN : Z := 0x0201.
Definition WM_LBUTTONUP : Z := 0x0202.
Definition WM_RBUTTONDOWN : Z := 0x0204.
Definition WM_RBUTTONUP : Z := 0x0205.
Definition WM_MBUTTONDOWN : Z := 0x0207.
Definition WM_MBUTTONUP : Z := 0x0208.

Definition VK_LBUTTON : Z := 0x01.
Definition VK_RBUTTON : Z := 0x02.
Definition VK_MBUTTON : Z := 0x04.

Definition GWLP_USERDATA : Z := -21.
Definition SW_SHOW : Z := 5.
Definition PM_REMOVE : Z := 0x0001.
Definition MB_ICONERROR : Z := 0x00000010.
Definition CW_USEDEFAULT : Z := -2147483648.
Definition WS_OVERLAPPEDWINDOW : Z := 0x00CF0000.
Definition WS_EX_COMPOSITED : Z := 0x02000000.

Definition TRUE : Z := 1.
Definition FALSE : Z := 0.
Definition NULL : Z := 0.

(** [GET_X_LPARAM] and [GET_Y_LPARAM] of [Windowsx.h]:
    [(int)(short)LOWORD(lp)] and [(int)(short)HIWORD(lp)]. *)
Definition LOWORD (l : Z) : Z := Z.land l 0xFFFF.
Definition HIWORD (l : Z) : Z := Z.land (Z.shiftr l 16) 0xFFFF.
Definition to_short (w : Z) : Z := if w <? 0x8000 then w else w - 0x10000.
Definition GET_X_LPARAM (lp : Z) : Z := to_short (LOWORD lp).
Definition GET_Y_LPARAM (lp : Z) : Z := to_short (HIWORD lp).
End Const.
Import Const.

(** ** The platform interface *)
Module Win32.

(** The [MSG] record filled in by the retrieval calls. *)
Record MSG := {
  hwnd : Z;
  message : Z;
  wParam : Z;
  lParam : Z;
  time : Z;
  pt_x : Z;
  pt_y : Z
}.

(** [MSG msg = {}]. *)
Definition MSG_zero : MSG :=
  {| hwnd := 0; message := 0; wParam := 0; lParam := 0;
     time := 0; pt_x := 0; pt_y := 0 |}.

Record PAINTSTRUCT := {
  ps_hdc : Z;
  ps_fErase : Z;
  ps_left : Z;
  ps_top : Z;
  ps_right : Z;
  ps_bottom : Z
}.

(** [PAINTSTRUCT ps = {}]. *)
Definition PAINTSTRUCT_zero : PAINTSTRUCT :=
  {| ps_hdc := 0; ps_fErase := 0; ps_left := 0; ps_top := 0;
     ps_right := 0; ps_bottom := 0 |}.

(** The fields of [WNDCLASS] the constructor sets; the others stay zero.
    [lpfnWndProc] is passed to the platform calls as a function. *)
Record WNDCLASS := {
  wc_hInstance : Z;
  wc_lpszClassName : string
}.

(** The [CREATESTRUCT] the platform passes by address with [WM_NCCREATE]. *)
Record CREATESTRUCT := {
  lpCreateParams : Z;
  cs_hInstance : Z;
  cs_cy : Z;
  cs_cx : Z;
  cs_y : Z;
  cs_x : Z;
  cs_style : Z;
  cs_lpszName : string;
  cs_lpszClass : string;
  cs_dwExStyle : Z
}.

(** The data members of [Application]. *)
Record Application := {
  m_hInstance : Z;
  m_hWnd : Z
}.

(** A message sent straight to a window procedure: id, wParam, lParam. *)
Definition Sent : Type := Z * Z * Z.

(** What [RegisterClassW] will answer. *)
Inductive RegisterPlan :=
| RegisterFails (code : N)
| RegisterGives (atom : positive).

(** What [CreateWindowExW] will do: fail before any window exists, or
    allocate the handle [h], send [WM_NCCREATE] and then the messages
    [rest] to the window procedure. *)
Inductive CreatePlan :=
| CreateFails (code : N)
| CreateSends (h : Z) (rest : list Sent).

(** The scripted answers of the platform. *)
Record Stubs := {
  module_handle : Z;
  register_plan : RegisterPlan;
  create_plan : CreatePlan;
  cs_address : Z;
  show_plan : list Sent;
  retrieval_error : option N;
  paint_plan : PAINTSTRUCT
}.

(** The arguments of the overridable hooks, as the window procedure passes
    them. *)
Inductive HookCall :=
| CallOnPaint (hDC : Z) (ps : PAINTSTRUCT)
| CallOnKeyDown (ulKey : Z)
| CallOnKeyUp (ulKey : Z)
| CallOnMouseButtonDown (uButton : Z)
| CallOnMouseButtonUp (uButton : Z)
| CallOnMouseMove (x y : Z)
| CallOnClose
| CallHandleOtherMessages (uMsg : Z).

(** The calls the library makes, in order; [EvWndProc] marks the platform
    entering the window procedure. *)
Inductive Event :=
| EvGetLastError
| EvMessageBoxW (hWnd : Z) (lpText : string) (lpCaption : Z) (uType : Z)
| EvOutputDebugStringW (lpOutputString : string)
| EvGetModuleHandleW (lpModuleName : Z)
| EvRegisterClassW (wc : WNDCLASS)
| EvCreateWindowExW (dwExStyle : Z) (lpClassName lpWindowName : string)
    (dwStyle x y nWidth nHeight hWndParent hMenu hInstance lpParam : Z)
| EvShowWindow (hWnd nCmdShow : Z)
| EvSetWindowLongPtr (hWnd nIndex dwNewLong : Z)
| EvGetWindowLongPtr (hWnd nIndex : Z)
| EvBeginPaint (hWnd : Z)
| EvEndPaint (hWnd : Z) (ps : PAINTSTRUCT)
| EvPostQuitMessage (nExitCode : Z)
| EvDefWindowProc (hWnd uMsg wParam lParam : Z)
| EvGetMessageW (hWnd wMsgFilterMin wMsgFilterMax : Z)
| EvPeekMessageW (hWnd wMsgFilterMin wMsgFilterMax wRemoveMsg : Z)
| EvTranslateMessage (msg : MSG)
| EvDispatchMessageW (msg : MSG)
| EvWndProc (hWnd uMsg wParam lParam : Z)
| EvHook (this : Z) (c : HookCall).

(** What is thrown: the library's own exception with its formatted text,
    or whatever an overridden hook throws, which the library never
    inspects. *)
Inductive exn :=
| ApplicationException (m_info : string)
| HookException (payload : Z).

(** Ways a call fails to come back at all. *)
Inductive halt :=
| InvalidPointer (p : Z)
| BlockedForever
| HookHalts.

Inductive outcome (A : Type) :=
| Ret (a : A)
| Throw (e : exn)
| Halt (why : halt).
Arguments Ret {A} a.
Arguments Throw {A} e.
Arguments Halt {A} why.

(** How a hook ends. *)
Inductive hook_outcome (A : Type) :=
| HookReturns (a : A)
| HookThrows (payload : Z)
| HookNeverReturns.
Arguments HookReturns {A} a.
Arguments HookThrows {A} payload.
Arguments HookNeverReturns {A}.

Definition outcome_of_hook {A} (o : hook_outcome A) : outcome A :=
  match o with
  | HookReturns a => Ret a
  | HookThrows p => Throw (HookException p)
  | HookNeverReturns => Halt HookHalts
  end.

Section World.
(** The state of the program outside the library (the derived class's own
    members and globals). *)
Context {D : Type}.

Record World := {
  stubs : Stubs;
  last_error : N;
  windows : gmap Z Z;
  create_structs : gmap Z CREATESTRUCT;
  queue : list MSG;
  quit_flag : option Z;
  paint_sessions : list Z;
  shells : gmap Z Application;
  program : D
}.

Definition set_last_error (c : N) (w : World) : World :=
  {| stubs := stubs w; last_error := c; windows := windows w;
     create_structs := create_structs w; queue := queue w;
     quit_flag := quit_flag w; paint_sessions := paint_sessions w;
     shells := shells w; program := program w |}.

Definition set_windows (m : gmap Z Z) (w : World) : World :=
  {| stubs := stubs w; last_error := last_error w; windows := m;
     create_structs := create_structs w; queue := queue w;
     quit_flag := quit_flag w; paint_sessions := paint_sessions w;
     shells := shells w; program := program w |}.

Definition set_create_structs (m : gmap Z CREATESTRUCT) (w : World) : World :=
  {| stubs := stubs w; last_error := last_error w; windows := windows w;
     create_structs := m; queue := queue w;
     quit_flag := quit_flag w; paint_sessions := paint_sessions w;
     shells := shells w; program := program w |}.

Definition set_queue (q : list MSG) (w : World) : World :=
  {| stubs := stubs w; last_error := last_error w; windows := windows w;
     create_structs := create_structs w; queue := q;
     quit_flag := quit_flag w; paint_sessions := paint_sessions w;
     shells := shells w; program := program w |}.

Definition set_quit_flag (f : option Z) (w : World) : World :=
  {| stubs := stubs w; last_error := last_error w; windows := windows w;
     create_structs := create_structs w; queue := queue w;
     quit_flag := f; paint_sessions := paint_sessions w;
     shells := shells w; program := program w |}.

Definition set_paint_sessions (l : list Z) (w : World) : World :=
  {| stubs := stubs w; last_error := last_error w; windows := windows w;
     create_structs := create_structs w; queue := queue w;
     quit_flag := quit_flag w; paint_sessions := l;
     shells := shells w; program := program w |}.

Definition set_shells (m : gmap Z Application) (w : World) : World :=
  {| stubs := stubs w; last_error := last_error w; windows := windows w;
     create_structs := create_structs w; queue := queue w;
     quit_flag := quit_flag w; paint_sessions := paint_sessions w;
     shells := m; program := program w |}.

(** *** Computations: state, exceptions, and the trace of calls *)
Definition M (A : Type) : Type := World -> outcome A * World * list Event.

Definition ret {A} (a : A) : M A := fun w => (Ret a, w, []).

Definition bind {A B} (m : M A) (k : A -> M B) : M B := fun w =>
  match m w with
  | (Ret a, w1, t1) =>
      match k a w1 with
      | (o, w2, t2) => (o, w2, t1 ++ t2)
      end
  | (Throw e, w1, t1) => (Throw e, w1, t1)
  | (Halt h, w1, t1) => (Halt h, w1, t1)
  end.

Definition throw {A} (e : exn) : M A := fun w => (Throw e, w, []).
Definition stop {A} (h : halt) : M A := fun w => (Halt h, w, []).
Definition log (e : Event) : M unit := fun w => (Ret tt, w, [e]).
Definition get : M World := fun w => (Ret w, w, []).
Definition modify (f : World -> World) : M unit := fun w => (Ret tt, f w, []).

Definition result_of {A} (r : outcome A * World * list Event) : outcome A := r.1.1.
Definition world_of {A} (r : outcome A * World * list Event) : World := r.1.2.
Definition trace_of {A} (r : outcome A * World * list Event) : list Event := r.2.
End World.
Arguments World D : clear implicits.
Arguments M D A : clear implicits.

Declare Scope swl_scope.
Delimit Scope swl_scope with swl.
Notation "x <- m ;; k" := (bind m (fun x => k))
  (at level 100, m at next level, right associativity) : swl_scope.
Notation "m ;;; k" := (bind m (fun _ => k))
  (at level 100, right associativity) : swl_scope.
Open Scope swl_scope.

(** *** The platform calls [SWL.hpp] makes

    Each call is recorded in the trace and answered from the scripted
    platform state.  The calls that enter a window procedure
    ([CreateWindowExW], [ShowWindow], [DispatchMessageW]) take it as the
    argument [wndproc], the [lpfnWndProc] of the registered class; an
    exception leaving the procedure propagates through the call. *)
Section Platform.
Context {D : Type}.

Definition ERROR_INVALID_WINDOW_HANDLE : N := 1400.

Definition GetLastError : M D N :=
  log EvGetLastError;;;
  w <- get;;
  ret (last_error w).

Definition MessageBoxW (hWnd : Z) (lpText : string) (lpCaption uType : Z) : M D Z :=
  log (EvMessageBoxW hWnd lpText lpCaption uType);;;
  ret 1.

Definition OutputDebugStringW (s : string) : M D unit :=
  log (EvOutputDebugStringW s).

Definition GetModuleHandleW (lpModuleName : Z) : M D Z :=
  log (EvGetModuleHandleW lpModuleName);;;
  w <- get;;
  ret (module_handle (stubs w)).

Definition RegisterClassW (wc : WNDCLASS) : M D Z :=
  log (EvRegisterClassW wc);;;
  w <- get;;
  match register_plan (stubs w) with
  | RegisterFails c => modify (set_last_error c);;; ret 0
  | RegisterGives a => ret (Z.pos a)
  end.

Definition call_window_proc (wndproc : Z -> Z -> Z -> Z -> M D Z)
    (hWnd uMsg wParam lParam : Z) : M D Z :=
  log (EvWndProc hWnd uMsg wParam lParam);;;
  wndproc hWnd uMsg wParam lParam.

Fixpoint send_all (wndproc : Z -> Z -> Z -> Z -> M D Z) (hWnd : Z)
    (l : list Sent) : M D unit :=
  match l with
  | [] => ret tt
  | (uMsg, wp, lp) :: l' =>
      call_window_proc wndproc hWnd uMsg wp lp;;;
      send_all wndproc hWnd l'
  end.

Definition CreateWindowExW (wndproc : Z -> Z -> Z -> Z -> M D Z)
    (dwExStyle : Z) (lpClassName lpWindowName : string)
    (dwStyle x y nWidth nHeight hWndParent hMenu hInstance lpParam : Z) : M D Z :=
  log (EvCreateWindowExW dwExStyle lpClassName lpWindowName dwStyle x y
         nWidth nHeight hWndParent hMenu hInstance lpParam);;;
  w <- get;;
  match create_plan (stubs w) with
  | CreateFails c => modify (set_last_error c);;; ret 0
  | CreateSends h rest =>
      let cs := {| lpCreateParams := lpParam; cs_hInstance := hInstance;
                   cs_cy := nHeight; cs_cx := nWidth; cs_y := y; cs_x := x;
                   cs_style := dwStyle; cs_lpszName := lpWindowName;
                   cs_lpszClass := lpClassName; cs_dwExStyle := dwExStyle |} in
      let a := cs_address (stubs w) in
      modify (fun w => set_windows (<[h := 0]> (windows w)) w);;;
      modify (fun w => set_create_structs (<[a := cs]> (create_structs w)) w);;;
      r <- call_window_proc wndproc h WM_NCCREATE 0 a;;
      if r =? 0 then
        modify (fun w => set_windows (delete h (windows w)) w);;;
        modify (fun w => set_create_structs (delete a (create_structs w)) w);;;
        ret 0
      else
        send_all wndproc h rest;;;
        modify (fun w => set_create_structs (delete a (create_structs w)) w);;;
        ret h
  end.

Definition ShowWindow (wndproc : Z -> Z -> Z -> Z -> M D Z)
    (hWnd nCmdShow : Z) : M D Z :=
  log (EvShowWindow hWnd nCmdShow);;;
  w <- get;;
  match windows w !! hWnd with
  | Some _ => send_all wndproc hWnd (show_plan (stubs w));;; ret 0
  | None => ret 0
  end.

(** Only the [GWLP_USERDATA] slot of a window is modelled. *)
Definition SetWindowLongPtr (hWnd nIndex dwNewLong : Z) : M D Z :=
  log (EvSetWindowLongPtr hWnd nIndex dwNewLong);;;
  w <- get;;
  match windows w !! hWnd with
  | Some old =>
      if nIndex =? GWLP_USERDATA then
        modify (set_windows (<[hWnd := dwNewLong]> (windows w)));;;
        ret old
      else ret 0
  | None => modify (set_last_error ERROR_INVALID_WINDOW_HANDLE);;; ret 0
  end.

Definition GetWindowLongPtr (hWnd nIndex : Z) : M D Z :=
  log (EvGetWindowLongPtr hWnd nIndex);;;
  w <- get;;
  match windows w !! hWnd with
  | Some v => if nIndex =? GWLP_USERDATA then ret v else ret 0
  | None => modify (set_last_error ERROR_INVALID_WINDOW_HANDLE);;; ret 0
  end.

Fixpoint close_session (hWnd : Z) (l : list Z) : list Z :=
  match l with
  | [] => []
  | x :: l' => if x =? hWnd then l' else x :: close_session hWnd l'
  end.

(** [BeginPaint(hWnd, &ps)]: the device context and the filled-in [ps]. *)
Definition BeginPaint (hWnd : Z) (ps : PAINTSTRUCT) : M D (Z * PAINTSTRUCT) :=
  log (EvBeginPaint hWnd);;;
  w <- get;;
  match windows w !! hWnd with
  | Some _ =>
      modify (set_paint_sessions (hWnd :: paint_sessions w));;;
      ret (ps_hdc (paint_plan (stubs w)), paint_plan (stubs w))
  | None => ret (0, ps)
  end.

Definition EndPaint (hWnd : Z) (ps : PAINTSTRUCT) : M D Z :=
  log (EvEndPaint hWnd ps);;;
  modify (fun w => set_paint_sessions (close_session hWnd (paint_sessions w)) w);;;
  ret 1.

Definition PostQuitMessage (nExitCode : Z) : M D unit :=
  log (EvPostQuitMessage nExitCode);;;
  modify (set_quit_flag (Some nExitCode)).

(** Only the call and its result are modelled. *)
Definition DefWindowProc (hWnd uMsg wParam lParam : Z) : M D Z :=
  log (EvDefWindowProc hWnd uMsg wParam lParam);;;
  ret (if uMsg =? WM_NCCREATE then TRUE else 0).

Definition quit_message (nExitCode : Z) : MSG :=
  {| hwnd := 0; message := WM_QUIT; wParam := nExitCode; lParam := 0;
     time := 0; pt_x := 0; pt_y := 0 |}.

(** [GetMessageW(&msg, hWnd, min, max)]: the return value and the
    contents of [msg] afterwards.  The library passes no filter, and none
    is modelled.  The queue holds the messages that are or will become
    available; with none and no quit request the call never returns. *)
Definition GetMessageW (msg : MSG) (hWnd wMsgFilterMin wMsgFilterMax : Z)
    : M D (Z * MSG) :=
  log (EvGetMessageW hWnd wMsgFilterMin wMsgFilterMax);;;
  w <- get;;
  match retrieval_error (stubs w) with
  | Some c => modify (set_last_error c);;; ret (-1, msg)
  | None =>
      match queue w with
      | m :: q =>
          modify (set_queue q);;;
          ret (if message m =? WM_QUIT then 0 else 1, m)
      | [] =>
          match quit_flag w with
          | Some n => modify (set_quit_flag None);;; ret (0, quit_message n)
          | None => stop BlockedForever
          end
      end
  end.

(** [PeekMessageW(&msg, hWnd, min, max, PM_REMOVE)]: returns at once;
    [msg] is left as it was when nothing is pending. *)
Definition PeekMessageW (msg : MSG)
    (hWnd wMsgFilterMin wMsgFilterMax wRemoveMsg : Z) : M D (Z * MSG) :=
  log (EvPeekMessageW hWnd wMsgFilterMin wMsgFilterMax wRemoveMsg);;;
  w <- get;;
  match queue w with
  | m :: q => modify (set_queue q);;; ret (TRUE, m)
  | [] =>
      match quit_flag w with
      | Some n => modify (set_quit_flag None);;; ret (TRUE, quit_message n)
      | None => ret (FALSE, msg)
      end
  end.

Definition TranslateMessage (msg : MSG) : M D Z :=
  log (EvTranslateMessage msg);;;
  ret (if (message msg =? WM_KEYDOWN) || (message msg =? WM_KEYUP)
       then TRUE else FALSE).

(** A message whose [hwnd] is not a window reaches no window procedure. *)
Definition DispatchMessageW (wndproc : Z -> Z -> Z -> Z -> M D Z) (msg : MSG) : M D Z :=
  log (EvDispatchMessageW msg);;;
  w <- get;;
  match windows w !! hwnd msg with
  | Some _ =>
      call_window_proc wndproc (hwnd msg) (message msg) (wParam msg) (lParam msg)
  | None => ret 0
  end.
End Platform.

End Win32.
Import Win32.

(** ** The library: [SWL.hpp] *)
Module SWL.
Section Library.
Context {D : Type}.

(** *** [ApplicationException] *)

(** The constructor: [m_info] is built by three appends, the last of which
    reads the platform's last-error code. *)
Definition ApplicationException_ctor (lpInfo : string) : M D exn :=
  let m_info := "" in
  let m_info := m_info +:+ lpInfo in
  let m_info := m_info +:+ " | Error code : " in
  code <- GetLastError;;
  let m_info := m_info +:+ pretty code in
  ret (ApplicationException m_info).

(** The two report actions read nothing of the object but [m_info], which is
    their argument here. *)
Definition ShowMessageBox (m_info : string) : M D unit :=
  MessageBoxW NULL m_info NULL MB_ICONERROR;;;
  ret tt.

Definition ShowDebugOutput (m_info : string) : M D unit :=
  OutputDebugStringW m_info.

(** [throw ApplicationException(lpInfo)]. *)
Definition throw_ApplicationException {A} (lpInfo : string) : M D A :=
  e <- ApplicationException_ctor lpInfo;;
  throw e.

(** *** The overridable hooks

    A hook receives [this] and its arguments and may change the state in any
    way, return, throw, or not come back. *)
Definition Hook (A : Type) : Type := World D -> hook_outcome A * World D.

Record Hooks := {
  OnPaint : Z -> Z -> PAINTSTRUCT -> Hook unit;
  OnKeyDown : Z -> Z -> Hook unit;
  OnKeyUp : Z -> Z -> Hook unit;
  OnMouseButtonDown : Z -> Z -> Hook unit;
  OnMouseButtonUp : Z -> Z -> Hook unit;
  OnMouseMove : Z -> Z -> Z -> Hook unit;
  OnClose : Z -> Hook unit;
  HandleOtherMessages : Z -> Z -> Hook Z
}.

(** The bodies in the class definition: [{}] and [{ return FALSE; }]. *)
Definition no_op : Hook unit := fun w => (HookReturns tt, w).

Definition default_hooks : Hooks :=
  {| OnPaint := fun _ _ _ => no_op;
     OnKeyDown := fun _ _ => no_op;
     OnKeyUp := fun _ _ => no_op;
     OnMouseButtonDown := fun _ _ => no_op;
     OnMouseButtonUp := fun _ _ => no_op;
     OnMouseMove := fun _ _ _ => no_op;
     OnClose := fun _ => no_op;
     HandleOtherMessages := fun _ _ w => (HookReturns FALSE, w) |}.

(** The body a hook call runs. *)
Definition hook_body (h : Hooks) (this : Z) (c : HookCall)
    : World D -> hook_outcome Z * World D :=
  let unit_hook (b : Hook unit) : World D -> hook_outcome Z * World D :=
    fun w => match b w with
             | (HookReturns _, w') => (HookReturns 0, w')
             | (HookThrows p, w') => (HookThrows p, w')
             | (HookNeverReturns, w') => (HookNeverReturns, w')
             end in
  match c with
  | CallOnPaint hDC ps => unit_hook (OnPaint h this hDC ps)
  | CallOnKeyDown k => unit_hook (OnKeyDown h this k)
  | CallOnKeyUp k => unit_hook (OnKeyUp h this k)
  | CallOnMouseButtonDown b => unit_hook (OnMouseButtonDown h this b)
  | CallOnMouseButtonUp b => unit_hook (OnMouseButtonUp h this b)
  | CallOnMouseMove x y => unit_hook (OnMouseMove h this x y)
  | CallOnClose => unit_hook (OnClose h this)
  | CallHandleOtherMessages uMsg => HandleOtherMessages h this uMsg
  end.

(** [pDerivedType->Hook(args)]: a member call through a pointer, which must
    point to a shell; the call is recorded, then the body runs.  The result
    is the hook's return value ([0] for the [void] hooks). *)
Definition invoke (h : Hooks) (pDerivedType : Z) (c : HookCall) : M D Z :=
  w <- get;;
  match shells w !! pDerivedType with
  | None => stop (InvalidPointer pDerivedType)
  | Some _ =>
      log (EvHook pDerivedType c);;;
      fun w => match hook_body h pDerivedType c w with
               | (o, w') => (outcome_of_hook o, w', [])
               end
  end.

(** [p->m_hWnd = v] and [p->m_hInstance = v]. *)
Definition write_m_hWnd (p v : Z) : M D unit :=
  w <- get;;
  match shells w !! p with
  | None => stop (InvalidPointer p)
  | Some a =>
      modify (set_shells
        (<[p := {| m_hInstance := m_hInstance a; m_hWnd := v |}]> (shells w)))
  end.

Definition write_m_hInstance (p v : Z) : M D unit :=
  w <- get;;
  match shells w !! p with
  | None => stop (InvalidPointer p)
  | Some a =>
      modify (set_shells
        (<[p := {| m_hInstance := v; m_hWnd := m_hWnd a |}]> (shells w)))
  end.

(** *** [Application::WndProc] *)

(** The labels of [switch (uMsg)]. *)
Inductive Route :=
| RoutePaint
| RouteKeyDown
| RouteKeyUp
| RouteButtonDown (vk : Z)
| RouteButtonUp (vk : Z)
| RouteMouseMove
| RouteClose
| RouteDefault.

Definition route (uMsg : Z) : Route :=
  if uMsg =? WM_PAINT then RoutePaint
  else if uMsg =? WM_KEYDOWN then RouteKeyDown
  else if uMsg =? WM_KEYUP then RouteKeyUp
  else if uMsg =? WM_LBUTTONDOWN then RouteButtonDown VK_LBUTTON
  else if uMsg =? WM_MBUTTONDOWN then RouteButtonDown VK_MBUTTON
  else if uMsg =? WM_RBUTTONDOWN then RouteButtonDown VK_RBUTTON
  else if uMsg =? WM_LBUTTONUP then RouteButtonUp VK_LBUTTON
  else if uMsg =? WM_MBUTTONUP then RouteButtonUp VK_MBUTTON
  else if uMsg =? WM_RBUTTONUP then RouteButtonUp VK_RBUTTON
  else if uMsg =? WM_MOUSEMOVE then RouteMouseMove
  else if uMsg =? WM_CLOSE then RouteClose
  else RouteDefault.

(** The first half: find the shell of the window. *)
Definition find_shell (hWnd uMsg lParam : Z) : M D Z :=
  if uMsg =? WM_NCCREATE then
    w <- get;;
    match create_structs w !! lParam with
    | None => stop (InvalidPointer lParam)
    | Some pCreate =>
        let pDerivedType := lpCreateParams pCreate in
        SetWindowLongPtr hWnd GWLP_USERDATA pDerivedType;;;
        write_m_hWnd pDerivedType hWnd;;;
        ret pDerivedType
    end
  else
    GetWindowLongPtr hWnd GWLP_USERDATA.

(** The [switch]: [Some r] when a case returns [r], [None] when control
    leaves the [switch] and reaches the final [DefWindowProc]. *)
Definition switch_uMsg (h : Hooks) (pDerivedType hWnd uMsg wParam lParam : Z)
    : M D (option Z) :=
  match route uMsg with
  | RoutePaint =>
      let ps := PAINTSTRUCT_zero in
      r <- BeginPaint hWnd ps;;
      let hDC := r.1 in
      let ps := r.2 in
      invoke h pDerivedType (CallOnPaint hDC ps);;;
      EndPaint hWnd ps;;;
      ret (Some TRUE)
  | RouteKeyDown =>
      invoke h pDerivedType (CallOnKeyDown wParam);;; ret (Some TRUE)
  | RouteKeyUp =>
      invoke h pDerivedType (CallOnKeyUp wParam);;; ret (Some TRUE)
  | RouteButtonDown vk =>
      invoke h pDerivedType (CallOnMouseButtonDown vk);;; ret (Some TRUE)
  | RouteButtonUp vk =>
      invoke h pDerivedType (CallOnMouseButtonUp vk);;; ret (Some TRUE)
  | RouteMouseMove =>
      let x := GET_X_LPARAM lParam in
      let y := GET_Y_LPARAM lParam in
      invoke h pDerivedType (CallOnMouseMove x y);;; ret (Some TRUE)
  | RouteClose =>
      invoke h pDerivedType CallOnClose;;;
      PostQuitMessage 0;;;
      ret (Some TRUE)
  | RouteDefault =>
      b <- invoke h pDerivedType (CallHandleOtherMessages uMsg);;
      if b =? 0 then ret None else ret (Some TRUE)
  end.

Definition WndProc (h : Hooks) (hWnd uMsg wParam lParam : Z) : M D Z :=
  pDerivedType <- find_shell hWnd uMsg lParam;;
  handled <- (if pDerivedType =? NULL then ret None
              else switch_uMsg h pDerivedType hWnd uMsg wParam lParam);;
  match handled with
  | Some r => ret r
  | None => DefWindowProc hWnd uMsg wParam lParam
  end.

(** *** The constructor of [Application]

    While the constructor of [Application<DerivedType>] runs, the object is
    not yet a [DerivedType]: a virtual call made through it, also from the
    window procedure the platform enters during [CreateWindowExW] and
    [ShowWindow], reaches the bodies of the class definition and not the
    overrides [h] of the derived class. *)
Definition under_construction (h : Hooks) : Hooks := default_hooks.

(** [this] is the address of the object under construction; its storage
    becomes a shell with the first member write.  The class is registered
    with [DerivedType::WndProc]; the hooks that procedure reaches until the
    constructor has returned are those of [under_construction]. *)
Definition Application_ctor (h : Hooks) (this : Z) (lpWindowName : string)
    (nWidth nHeight x y dwStyle dwExStyle : Z) : M D unit :=
  modify (fun w =>
    match shells w !! this with
    | Some _ => w
    | None => set_shells (<[this := {| m_hInstance := 0; m_hWnd := 0 |}]> (shells w)) w
    end);;;
  hInstance <- GetModuleHandleW NULL;;
  write_m_hInstance this hInstance;;;
  let wndClass := {| wc_hInstance := hInstance; wc_lpszClassName := lpWindowName |} in
  atom <- RegisterClassW wndClass;;
  (if atom =? 0 then
     throw_ApplicationException "Failed to register the window class (RegisterClassW)"
   else ret tt);;;
  hWnd <- CreateWindowExW (WndProc (under_construction h)) dwExStyle lpWindowName
            lpWindowName dwStyle x y nWidth nHeight NULL NULL hInstance this;;
  write_m_hWnd this hWnd;;;
  (if hWnd =? NULL then
     throw_ApplicationException "Failed to create a window (CreateWindowEx)"
   else ret tt);;;
  ShowWindow (WndProc (under_construction h)) hWnd SW_SHOW;;;
  ret tt.

(** *** The pump operations *)
Definition WaitMessage (h : Hooks) : M D unit :=
  let msg := MSG_zero in
  r <- GetMessageW msg NULL 0 0;;
  let msg := r.2 in
  (if r.1 =? -1 then
     throw_ApplicationException "Failed to get a message (GetMessageW)"
   else ret tt);;;
  TranslateMessage msg;;;
  DispatchMessageW (WndProc h) msg;;;
  ret tt.

Definition PollMessage (h : Hooks) : M D unit :=
  let msg := MSG_zero in
  r <- PeekMessageW msg NULL 0 0 PM_REMOVE;;
  let msg := r.2 in
  TranslateMessage msg;;;
  DispatchMessageW (WndProc h) msg;;;
  ret tt.

End Library.
Arguments Hooks D : clear implicits.
Arguments Hook D A : clear implicits.
End SWL.
Import SWL.

(** ** Vocabulary of the statements *)
Section Vocabulary.
Context {D : Type}.

(** What the user-data slot of [hWnd] reads as ([NULL] for no window). *)
Definition user_data (w : World D) (hWnd : Z) : Z :=
  default NULL (windows w !! hWnd).

(** The window [hWnd] is associated with the shell at [p]. *)
Definition associated (w : World D) (hWnd p : Z) : Prop :=
  windows w !! hWnd = Some p /\ p <> NULL /\ is_Some (shells w !! p).

(** No message and no quit request is pending. *)
Definition nothing_pending (w : World D) : Prop :=
  queue w = [] /\ quit_flag w = None.

(** The message ids with a case label of their own in [WndProc]. *)
Definition routing_set : list Z :=
  [WM_PAINT; WM_KEYDOWN; WM_KEYUP; WM_LBUTTONDOWN; WM_MBUTTONDOWN;
   WM_RBUTTONDOWN; WM_LBUTTONUP; WM_MBUTTONUP; WM_RBUTTONUP; WM_MOUSEMOVE;
   WM_CLOSE].

Definition is_hook (e : Event) : bool :=
  match e with EvHook _ _ => true | _ => false end.

Definition is_WndProc (e : Event) : bool :=
  match e with EvWndProc _ _ _ _ => true | _ => false end.

Definition is_translate (e : Event) : bool :=
  match e with EvTranslateMessage _ => true | _ => false end.

Definition is_dispatch (e : Event) : bool :=
  match e with EvDispatchMessageW _ => true | _ => false end.

Definition is_create (e : Event) : bool :=
  match e with EvCreateWindowExW _ _ _ _ _ _ _ _ _ _ _ _ => true | _ => false end.

Definition is_OnPaint (e : Event) : bool :=
  match e with EvHook _ (CallOnPaint _ _) => true | _ => false end.

Definition is_OnClose (e : Event) : bool :=
  match e with EvHook _ CallOnClose => true | _ => false end.

Definition is_HandleOther (e : Event) : bool :=
  match e with EvHook _ (CallHandleOtherMessages _) => true | _ => false end.

Definition is_BeginPaint (e : Event) : bool :=
  match e with EvBeginPaint _ => true | _ => false end.

Definition is_EndPaint (e : Event) : bool :=
  match e with EvEndPaint _ _ => true | _ => false end.

Definition is_PostQuit (e : Event) : bool :=
  match e with EvPostQuitMessage _ => true | _ => false end.

Definition is_DefWindowProc (e : Event) : bool :=
  match e with EvDefWindowProc _ _ _ _ => true | _ => false end.

(** How many events of a kind a trace holds. *)
Definition count (f : Event -> bool) (t : list Event) : nat :=
  length (filter (fun e => f e = true) t).

(** The first entry into a window procedure a trace records. *)
Fixpoint first_WndProc (t : list Event) : option (Z * Z * Z * Z) :=
  match t with
  | [] => None
  | EvWndProc hWnd uMsg wp lp :: _ => Some (hWnd, uMsg, wp, lp)
  | _ :: t' => first_WndProc t'
  end.

(** [s] occurs in [t]. *)
Definition contains (t s : string) : Prop :=
  exists a b, t = a +:+ s +:+ b.

(** A computation that never ends in an [ApplicationException]: whatever it
    throws comes from a hook. *)
Definition throws_only_from_hooks {A} (m : M D A) : Prop :=
  forall w s, result_of (m w) <> Throw (ApplicationException s).

(** The hooks leave the platform's script, the window table and the shells
    as they found them. *)
Definition hooks_keep_bindings (h : Hooks D) : Prop :=
  forall this c w,
    stubs (snd (hook_body h this c w)) = stubs w /\
    windows (snd (hook_body h this c w)) = windows w /\
    shells (snd (hook_body h this c w)) = shells w.

Definition not_NCCREATE (m : Sent) : Prop := m.1.1 <> WM_NCCREATE.

(** [WM_NCCREATE] is the first message of a window, and is sent once. *)
Definition NCCREATE_once (s : Stubs) : Prop :=
  (forall hWnd rest, create_plan s = CreateSends hWnd rest -> Forall not_NCCREATE rest)
  /\ Forall not_NCCREATE (show_plan s).

(** Under the script [s], the window [hWnd] and the shell at [this] point at
    each other. *)
Definition bound (s : Stubs) (hWnd this : Z) (w : World D) : Prop :=
  stubs w = s /\ windows w !! hWnd = Some this /\
  m_hWnd <$> shells w !! this = Some hWnd.

(** A computation that keeps a property of the state, however it ends. *)
Definition preserves {A} (P : World D -> Prop) (m : M D A) : Prop :=
  forall w, P w -> P (world_of (m w)).

(** The outcome of a [void] function whose last call's value is dropped. *)
Definition discard {A} (o : outcome A) : outcome unit :=
  match o with
  | Ret _ => Ret tt
  | Throw e => Throw e
  | Halt y => Halt y
  end.
End Vocabulary.

(** ** Three sentences of the specification, word for word

    Each is a predicate on one run; the theorems below decide where they hold. *)
Section Worded.
Context {D : Type}.

(** Polling with nothing pending does no translation, no dispatch, and
    reaches no hook. *)
Definition poll_is_no_op (h : Hooks D) (w : World D) : Prop :=
  nothing_pending w ->
  let t := trace_of (PollMessage h w) in
  count is_translate t = 0%nat /\ count is_dispatch t = 0%nat /\
  count is_hook t = 0%nat.

(** A paint dispatch calls the hook once and both opens and closes the paint
    session, whatever the hook does. *)
Definition paint_always_bracketed (h : Hooks D) (w : World D) (hWnd p : Z) : Prop :=
  associated w hWnd p ->
  let t := trace_of (WndProc h hWnd WM_PAINT 0 0 w) in
  count is_OnPaint t = 1%nat /\ count is_BeginPaint t = 1%nat /\
  count is_EndPaint t = 1%nat.

(** A close dispatch calls the hook once and posts the quit signal, whatever
    the hook does. *)
Definition close_always_quits (h : Hooks D) (w : World D) (hWnd p : Z) : Prop :=
  associated w hWnd p ->
  let t := trace_of (WndProc h hWnd WM_CLOSE 0 0 w) in
  count is_OnClose t = 1%nat /\ count is_PostQuit t = 1%nat.
End Worded.

(** ** Concrete runs

    A scripted platform that lets construction succeed, the state after
    constructing one shell on it, and a few overridden hook sets. *)
Module Scenario.

Definition the_paint : PAINTSTRUCT :=
  {| ps_hdc := 77; ps_fErase := 1; ps_left := 0; ps_top := 0;
     ps_right := 640; ps_bottom := 480 |}.

Definition the_hwnd : Z := 0x1A2B.
Definition the_shell : Z := 0x5000.
Definition the_instance : Z := 0x400000.

Definition stubs_ok : Stubs :=
  {| module_handle := the_instance;
     register_plan := RegisterGives 0xC001;
     create_plan := CreateSends the_hwnd [(WM_CREATE, 0, 0x7000)];
     cs_address := 0x7000;
     show_plan := [(0x0018, 1, 0)];
     retrieval_error := None;
     paint_plan := the_paint |}.

(** Registration answers with [ERROR_CLASS_ALREADY_EXISTS]. *)
Definition stubs_no_class : Stubs :=
  {| module_handle := the_instance;
     register_plan := RegisterFails 1410;
     create_plan := CreateSends the_hwnd [(WM_CREATE, 0, 0x7000)];
     cs_address := 0x7000;
     show_plan := [(0x0018, 1, 0)];
     retrieval_error := None;
     paint_plan := the_paint |}.

(** Retrieval answers with [ERROR_INVALID_WINDOW_HANDLE]. *)
Definition stubs_no_retrieval : Stubs :=
  {| module_handle := the_instance;
     register_plan := RegisterGives 0xC001;
     create_plan := CreateSends the_hwnd [(WM_CREATE, 0, 0x7000)];
     cs_address := 0x7000;
     show_plan := [(0x0018, 1, 0)];
     retrieval_error := Some 1400%N;
     paint_plan := the_paint |}.

Definition before (s : Stubs) : World unit :=
  {| stubs := s; last_error := 0; windows := ∅; create_structs := ∅;
     queue := []; quit_flag := None; paint_sessions := []; shells := ∅;
     program := tt |}.

(** After constructing the shell at [the_shell]. *)
Definition shown (s : Stubs) : World unit :=
  {| stubs := s; last_error := 0;
     windows := {[ the_hwnd := the_shell ]};
     create_structs := ∅;
     queue := []; quit_flag := None; paint_sessions := [];
     shells := {[ the_shell := {| m_hInstance := the_instance; m_hWnd := the_hwnd |} ]};
     program := tt |}.

Definition key_message : MSG :=
  {| hwnd := the_hwnd; message := WM_KEYDOWN; wParam := 0x41; lParam := 0;
     time := 0; pt_x := 0; pt_y := 0 |}.

Definition raise (payload : Z) : Hook unit unit :=
  fun w => (HookThrows payload, w).

(** [OnPaint] overridden to throw. *)
Definition paint_throws : Hooks unit :=
  {| OnPaint := fun _ _ _ => raise 7;
     OnKeyDown := OnKeyDown default_hooks;
     OnKeyUp := OnKeyUp default_hooks;
     OnMouseButtonDown := OnMouseButtonDown default_hooks;
     OnMouseButtonUp := OnMouseButtonUp default_hooks;
     OnMouseMove := OnMouseMove default_hooks;
     OnClose := OnClose default_hooks;
     HandleOtherMessages := HandleOtherMessages default_hooks |}.

(** [OnClose] overridden to throw. *)
Definition close_throws : Hooks unit :=
  {| OnPaint := OnPaint default_hooks;
     OnKeyDown := OnKeyDown default_hooks;
     OnKeyUp := OnKeyUp default_hooks;
     OnMouseButtonDown := OnMouseButtonDown default_hooks;
     OnMouseButtonUp := OnMouseButtonUp default_hooks;
     OnMouseMove := OnMouseMove default_hooks;
     OnClose := fun _ => raise 9;
     HandleOtherMessages := HandleOtherMessages default_hooks |}.

(** [HandleOtherMessages] overridden to claim every message. *)
Definition handles_all : Hooks unit :=
  {| OnPaint := OnPaint default_hooks;
     OnKeyDown := OnKeyDown default_hooks;
     OnKeyUp := OnKeyUp default_hooks;
     OnMouseButtonDown := OnMouseButtonDown default_hooks;
     OnMouseButtonUp := OnMouseButtonUp default_hooks;
     OnMouseMove := OnMouseMove default_hooks;
     OnClose := OnClose default_hooks;
     HandleOtherMessages := fun _ _ w => (HookReturns TRUE, w) |}.

(** Constructing the shell with the default arguments and the default hooks. *)
Definition demo_run : outcome unit * World unit * list Event :=
  Application_ctor default_hooks the_shell "Demo"
    CW_USEDEFAULT CW_USEDEFAULT CW_USEDEFAULT CW_USEDEFAULT
    WS_OVERLAPPEDWINDOW WS_EX_COMPOSITED (before stubs_ok).

(** A quit request is pending and nothing else. *)
Definition quitting : World unit := set_quit_flag (Some 0) (shown stubs_ok).

End Scenario.

(** ** Vocabulary for the rest of the header *)
Section Further.
Context {D : Type}.

(** Every call a computation records satisfies [P], however it ends. *)
Definition emits {A} (P : Event -> bool) (m : M D A) : Prop :=
  forall w, Forall (fun e => P e = true) (trace_of (m w)).

(** The calls the body of [WndProc] makes. *)
Definition is_WndProc_call (e : Event) : bool :=
  match e with
  | EvSetWindowLongPtr _ _ _ | EvGetWindowLongPtr _ _
  | EvBeginPaint _ | EvEndPaint _ _ | EvPostQuitMessage _
  | EvDefWindowProc _ _ _ _ | EvHook _ _ => true
  | _ => false
  end.

Definition is_SetWindowLongPtr (e : Event) : bool :=
  match e with EvSetWindowLongPtr _ _ _ => true | _ => false end.

(** The calls of [WndProc] that leave the user-data slot alone. *)
Definition is_reading_call (e : Event) : bool :=
  is_WndProc_call e && negb (is_SetWindowLongPtr e).

(** What a trace holds while the platform is inside window procedures. *)
Definition is_callback (e : Event) : bool :=
  is_WndProc e || is_WndProc_call e.

(** What a pump operation other than the blocking retrieval records. *)
Definition is_poll_event (e : Event) : bool :=
  match e with
  | EvPeekMessageW _ _ _ _ | EvTranslateMessage _ | EvDispatchMessageW _ => true
  | _ => is_callback e
  end.

Definition is_GetLastError (e : Event) : bool :=
  match e with EvGetLastError => true | _ => false end.

Definition is_PeekMessage (e : Event) : bool :=
  match e with EvPeekMessageW _ _ _ _ => true | _ => false end.

Definition is_GetMessage (e : Event) : bool :=
  match e with EvGetMessageW _ _ _ => true | _ => false end.

Definition is_ShowWindow (e : Event) : bool :=
  match e with EvShowWindow _ _ => true | _ => false end.

Definition is_RegisterClass (e : Event) : bool :=
  match e with EvRegisterClassW _ => true | _ => false end.

(** The script, the window table and the shells are exactly these. *)
Definition frozen (s : Stubs) (ws : gmap Z Z) (ss : gmap Z Application)
    (w : World D) : Prop :=
  stubs w = s /\ windows w = ws /\ shells w = ss.

(** The state in which the constructor calls [RegisterClassW] and, when that
    succeeds, [CreateWindowExW]: the storage at [this] holds the module handle
    in [m_hInstance], and in [m_hWnd] what it held before ([0] when fresh). *)
Definition at_creation (this : Z) (w : World D) : World D :=
  set_shells
    (<[this := {| m_hInstance := module_handle (stubs w);
                  m_hWnd := from_option m_hWnd 0 (shells w !! this) |}]>
       (shells w)) w.

(** A sentence of the specification, word for word: a message id outside
    the routing set, sent to a window with an associated shell, reaches
    [HandleOtherMessages]. *)
Definition other_message_reaches_hook (h : Hooks D) (w : World D)
    (hWnd uMsg wParam lParam p : Z) : Prop :=
  uMsg ∉ routing_set ->
  associated w hWnd p ->
  count is_HandleOther (trace_of (WndProc h hWnd uMsg wParam lParam w)) = 1%nat.

(** The hook call of a case label that calls its hook and returns [TRUE]. *)
Definition plain_call (uMsg wParam lParam : Z) : option HookCall :=
  match route uMsg with
  | RouteKeyDown => Some (CallOnKeyDown wParam)
  | RouteKeyUp => Some (CallOnKeyUp wParam)
  | RouteButtonDown vk => Some (CallOnMouseButtonDown vk)
  | RouteButtonUp vk => Some (CallOnMouseButtonUp vk)
  | RouteMouseMove =>
      Some (CallOnMouseMove (GET_X_LPARAM lParam) (GET_Y_LPARAM lParam))
  | _ => None
  end.

(** The six button messages. *)
Definition button_messages : list Z :=
  [WM_LBUTTONDOWN; WM_MBUTTONDOWN; WM_RBUTTONDOWN;
   WM_LBUTTONUP; WM_MBUTTONUP; WM_RBUTTONUP].

(** The state in which the hooks run while [WM_NCCREATE] is handled for the
    shell [a] at [this]: slot and [m_hWnd] are already written. *)
Definition bound_at_creation (w : World D) (hWnd this : Z) (a : Application)
    : World D :=
  set_shells
    (<[this := {| m_hInstance := m_hInstance a; m_hWnd := hWnd |}]> (shells w))
    (set_windows (<[hWnd := this]> (windows w)) w).
End Further.

(** ** Further concrete runs *)
Module Cases.
Import Scenario.

(** Creation answers with [ERROR_CANNOT_FIND_WND_CLASS]. *)
Definition stubs_no_window : Stubs :=
  {| module_handle := the_instance;
     register_plan := RegisterGives 0xC001;
     create_plan := CreateFails 1407;
     cs_address := 0x7000;
     show_plan := [(0x0018, 1, 0)];
     retrieval_error := None;
     paint_plan := the_paint |}.

Definition creation_struct (lpParam : Z) : CREATESTRUCT :=
  {| lpCreateParams := lpParam; cs_hInstance := the_instance;
     cs_cy := 480; cs_cx := 640; cs_y := 0; cs_x := 0;
     cs_style := WS_OVERLAPPEDWINDOW; cs_lpszName := "Demo";
     cs_lpszClass := "Demo"; cs_dwExStyle := WS_EX_COMPOSITED |}.

(** Inside [CreateWindowExW], as the creation notification is delivered:
    the window exists with an empty slot, and the creation parameters are
    [lpParam]. *)
Definition creating (lpParam : Z) : World unit :=
  {| stubs := stubs_ok; last_error := 0;
     windows := {[ the_hwnd := NULL ]};
     create_structs := {[ 0x7000 := creation_struct lpParam ]};
     queue := []; quit_flag := None; paint_sessions := [];
     shells := {[ the_shell := {| m_hInstance := the_instance; m_hWnd := 0 |} ]};
     program := tt |}.

Definition move_message : MSG :=
  {| hwnd := the_hwnd; message := WM_MOUSEMOVE; wParam := 0;
     lParam := 0xFFFE0005; time := 0; pt_x := 5; pt_y := -2 |}.

(** Two messages wait for the shown window. *)
Definition queued : World unit :=
  set_queue [key_message; move_message] (shown stubs_ok).

End Cases.

(** ** Equations of the building blocks *)
Section Blocks.
Context {D : Type}.
Implicit Types (w : World D) (h : Hooks D).

Lemma route_default_iff uMsg :
  route uMsg = RouteDefault <-> uMsg ∉ routing_set.
Proof.
  split.
  - intros H Hin. unfold routing_set in Hin.
    repeat (apply elem_of_cons in Hin as [->|Hin]; [vm_compute in H; discriminate|]).
    by apply elem_of_nil in Hin.
  - intros H. unfold route.
    repeat (case_match; [exfalso; apply H; unfold routing_set;
      match goal with E : (_ =? _) = true |- _ => apply Z.eqb_eq in E; rewrite E end;
      set_solver |]).
    reflexivity.
Qed.

Lemma find_shell_other hWnd uMsg lParam w :
  uMsg <> WM_NCCREATE ->
  find_shell hWnd uMsg lParam w
  = (Ret (user_data w hWnd),
     match windows w !! hWnd with
     | Some _ => w
     | None => set_last_error ERROR_INVALID_WINDOW_HANDLE w
     end,
     [EvGetWindowLongPtr hWnd GWLP_USERDATA]).
Proof.
  intros H. apply Z.eqb_neq in H.
  unfold find_shell, user_data, GetWindowLongPtr, bind, log, get. rewrite H.
  destruct (windows w !! hWnd); reflexivity.
Qed.

Lemma find_shell_associated hWnd uMsg lParam w p :
  uMsg <> WM_NCCREATE -> windows w !! hWnd = Some p ->
  find_shell hWnd uMsg lParam w
  = (Ret p, w, [EvGetWindowLongPtr hWnd GWLP_USERDATA]).
Proof.
  intros H Hp. rewrite find_shell_other by done.
  unfold user_data. rewrite Hp. reflexivity.
Qed.

Lemma invoke_eq h p c w :
  is_Some (shells w !! p) ->
  invoke h p c w
  = (outcome_of_hook (hook_body h p c w).1, (hook_body h p c w).2, [EvHook p c]).
Proof.
  intros [a Ha]. unfold invoke, bind, get, log. rewrite Ha.
  destruct (hook_body h p c w) as [o w']. reflexivity.
Qed.

End Blocks.

(** ** The window procedure, case by case *)
Section Dispatch.
Context {D : Type}.
Implicit Types (w : World D) (h : Hooks D).

(** With an association in place, [WndProc] is the [switch] followed by the
    default handling when the [switch] falls through. *)
Lemma WndProc_associated h w hWnd uMsg wParam lParam p :
  uMsg <> WM_NCCREATE -> associated w hWnd p ->
  WndProc h hWnd uMsg wParam lParam w
  = match switch_uMsg h p hWnd uMsg wParam lParam w with
    | (Ret (Some r), w1, t1) =>
        (Ret r, w1, EvGetWindowLongPtr hWnd GWLP_USERDATA :: t1)
    | (Ret None, w1, t1) =>
        (Ret (if uMsg =? WM_NCCREATE then TRUE else 0), w1,
         EvGetWindowLongPtr hWnd GWLP_USERDATA
           :: t1 ++ [EvDefWindowProc hWnd uMsg wParam lParam])
    | (Throw e, w1, t1) =>
        (Throw e, w1, EvGetWindowLongPtr hWnd GWLP_USERDATA :: t1)
    | (Halt y, w1, t1) =>
        (Halt y, w1, EvGetWindowLongPtr hWnd GWLP_USERDATA :: t1)
    end.
Proof.
  intros Hm (Hp & Hnz & _). unfold WndProc, bind.
  rewrite (find_shell_associated _ _ _ _ p) by done.
  apply Z.eqb_neq in Hnz. rewrite Hnz.
  destruct (switch_uMsg h p hWnd uMsg wParam lParam w) as [[[[r|]| |] w1] t1];
    unfold DefWindowProc, bind, log, ret; simpl; rewrite ?app_nil_r; reflexivity.
Qed.

(** The [default:] label. *)
Lemma switch_default h w hWnd uMsg wParam lParam p :
  uMsg ∉ routing_set -> is_Some (shells w !! p) ->
  switch_uMsg h p hWnd uMsg wParam lParam w
  = match HandleOtherMessages h p uMsg w with
    | (HookReturns b, w1) =>
        (Ret (if b =? 0 then None else Some TRUE), w1,
         [EvHook p (CallHandleOtherMessages uMsg)])
    | (HookThrows e, w1) =>
        (Throw (HookException e), w1, [EvHook p (CallHandleOtherMessages uMsg)])
    | (HookNeverReturns, w1) =>
        (Halt HookHalts, w1, [EvHook p (CallHandleOtherMessages uMsg)])
    end.
Proof.
  intros Hr Hs. apply route_default_iff in Hr.
  unfold switch_uMsg, bind. rewrite Hr, invoke_eq by done. simpl.
  destruct (HandleOtherMessages h p uMsg w) as [[b| |] w1]; simpl; try reflexivity.
  destruct (b =? 0); reflexivity.
Qed.

(** The [case WM_PAINT:] label. *)
Lemma switch_paint h w hWnd wParam lParam p :
  is_Some (windows w !! hWnd) -> is_Some (shells w !! p) ->
  let ps := paint_plan (stubs w) in
  let w0 := set_paint_sessions (hWnd :: paint_sessions w) w in
  let opened := [EvBeginPaint hWnd; EvHook p (CallOnPaint (ps_hdc ps) ps)] in
  switch_uMsg h p hWnd WM_PAINT wParam lParam w
  = match OnPaint h p (ps_hdc ps) ps w0 with
    | (HookReturns _, w1) =>
        (Ret (Some TRUE),
         set_paint_sessions (close_session hWnd (paint_sessions w1)) w1,
         opened ++ [EvEndPaint hWnd ps])
    | (HookThrows e, w1) => (Throw (HookException e), w1, opened)
    | (HookNeverReturns, w1) => (Halt HookHalts, w1, opened)
    end.
Proof.
  intros [v Hv] Hs ps w0 opened.
  unfold switch_uMsg, bind. change (route WM_PAINT) with RoutePaint. cbv beta iota.
  unfold BeginPaint, bind, log, get. rewrite Hv. simpl.
  fold ps w0. rewrite invoke_eq by done. simpl.
  destruct (OnPaint h p (ps_hdc ps) ps w0) as [[[]| |] w1]; reflexivity.
Qed.

(** The [case WM_CLOSE:] label. *)
Lemma switch_close h w hWnd wParam lParam p :
  is_Some (shells w !! p) ->
  switch_uMsg h p hWnd WM_CLOSE wParam lParam w
  = match OnClose h p w with
    | (HookReturns _, w1) =>
        (Ret (Some TRUE), set_quit_flag (Some 0) w1,
         [EvHook p CallOnClose; EvPostQuitMessage 0])
    | (HookThrows e, w1) => (Throw (HookException e), w1, [EvHook p CallOnClose])
    | (HookNeverReturns, w1) => (Halt HookHalts, w1, [EvHook p CallOnClose])
    end.
Proof.
  intros Hs.
  unfold switch_uMsg, bind. change (route WM_CLOSE) with RouteClose. cbv beta iota.
  rewrite invoke_eq by done. simpl.
  destruct (OnClose h p w) as [[[]| |] w1]; reflexivity.
Qed.

End Dispatch.

(** ** The routing of messages to hooks *)
Section Routing.
Context {D : Type}.
Implicit Types (w : World D) (h : Hooks D).

(** C9.  A message other than [WM_NCCREATE] for a window whose user-data slot
    holds no shell pointer reaches no hook: the window procedure reads the
    slot, calls [DefWindowProc] with the message, and returns its result. *)
Theorem WndProc_without_association h w hWnd uMsg wParam lParam :
  uMsg <> WM_NCCREATE ->
  user_data w hWnd = NULL ->
  let r := WndProc h hWnd uMsg wParam lParam w in
  trace_of r = [EvGetWindowLongPtr hWnd GWLP_USERDATA;
                EvDefWindowProc hWnd uMsg wParam lParam]
  /\ count is_hook (trace_of r) = 0%nat
  /\ result_of r = result_of (DefWindowProc hWnd uMsg wParam lParam w)
  /\ shells (world_of r) = shells w
  /\ program (world_of r) = program w.
Proof.
  intros Hm Hu r. subst r. unfold WndProc, bind.
  rewrite find_shell_other by done. rewrite Hu. simpl.
  destruct (windows w !! hWnd); repeat split; reflexivity.
Qed.

(** C6, as the code has it.  A message id outside the routing set and
    other than [WM_NCCREATE], sent to a window with an associated shell,
    reaches [HandleOtherMessages] exactly once.  When the hook returns
    nonzero ([TRUE]: handled) the procedure returns [TRUE] without calling
    [DefWindowProc]; when it returns [FALSE] the procedure calls
    [DefWindowProc] once, with the same message, and returns its result.
    ([WM_NCCREATE] has a branch of its own: the shell is then taken from the
    creation parameters and not from the association.) *)
Theorem WndProc_other_messages h w hWnd uMsg wParam lParam p :
  uMsg ∉ routing_set ->
  uMsg <> WM_NCCREATE ->
  associated w hWnd p ->
  let r := WndProc h hWnd uMsg wParam lParam w in
  let hook := HandleOtherMessages h p uMsg w in
  let called := [EvGetWindowLongPtr hWnd GWLP_USERDATA;
                 EvHook p (CallHandleOtherMessages uMsg)] in
  count is_HandleOther (trace_of r) = 1%nat /\
  forall b, hook.1 = HookReturns b ->
    (b <> FALSE ->
       trace_of r = called /\ result_of r = Ret TRUE /\
       count is_DefWindowProc (trace_of r) = 0%nat) /\
    (b = FALSE ->
       trace_of r = called ++ [EvDefWindowProc hWnd uMsg wParam lParam] /\
       result_of r = result_of (DefWindowProc hWnd uMsg wParam lParam hook.2) /\
       count is_DefWindowProc (trace_of r) = 1%nat).
Proof.
  intros Hr Hm Ha r hook called. subst r hook called.
  rewrite (WndProc_associated h w hWnd uMsg wParam lParam p) by done.
  rewrite switch_default by (done || apply Ha).
  destruct (HandleOtherMessages h p uMsg w) as [[b| |] w1]; simpl.
  - destruct (Z.eqb_spec b 0) as [->|Hb]; (split; [reflexivity|]);
      intros b' [= <-]; split; intros Hb'; done.
  - split; [reflexivity|]. intros b [=].
  - split; [reflexivity|]. intros b [=].
Qed.

(** C2, as the code has it.  A paint message sent to a window with an
    associated shell opens the paint session with [BeginPaint] and then calls
    [OnPaint] exactly once.  When the hook returns, [EndPaint] closes the
    session and the procedure returns [TRUE]; when the hook throws, the
    exception leaves the procedure and [EndPaint] is not called. *)
Theorem WndProc_paint h w hWnd wParam lParam p :
  associated w hWnd p ->
  let ps := paint_plan (stubs w) in
  let r := WndProc h hWnd WM_PAINT wParam lParam w in
  let hook := OnPaint h p (ps_hdc ps) ps
                (set_paint_sessions (hWnd :: paint_sessions w) w) in
  let opened := [EvGetWindowLongPtr hWnd GWLP_USERDATA; EvBeginPaint hWnd;
                 EvHook p (CallOnPaint (ps_hdc ps) ps)] in
  count is_OnPaint (trace_of r) = 1%nat /\
  match hook.1 with
  | HookReturns _ =>
      result_of r = Ret TRUE /\ trace_of r = opened ++ [EvEndPaint hWnd ps]
  | HookThrows e =>
      result_of r = Throw (HookException e) /\ trace_of r = opened /\
      count is_EndPaint (trace_of r) = 0%nat
  | HookNeverReturns =>
      result_of r = Halt HookHalts /\ trace_of r = opened
  end.
Proof.
  intros Ha ps r hook opened. subst r hook opened.
  rewrite (WndProc_associated h w hWnd WM_PAINT wParam lParam p) by done.
  destruct Ha as (Hw & _ & Hs).
  rewrite switch_paint by (done || by eexists). fold ps.
  destruct (OnPaint h p (ps_hdc ps) ps _) as [[[]| |] w1]; simpl; done.
Qed.

(** C3, as the code has it.  A close message sent to a window with an
    associated shell calls [OnClose] exactly once.  When the hook returns,
    [PostQuitMessage(0)] follows, the quit request is pending afterwards, and
    the procedure returns [TRUE]; when the hook throws, the exception leaves
    the procedure and no quit signal is posted. *)
Theorem WndProc_close h w hWnd wParam lParam p :
  associated w hWnd p ->
  let r := WndProc h hWnd WM_CLOSE wParam lParam w in
  let hook := OnClose h p w in
  let called := [EvGetWindowLongPtr hWnd GWLP_USERDATA; EvHook p CallOnClose] in
  count is_OnClose (trace_of r) = 1%nat /\
  match hook.1 with
  | HookReturns _ =>
      result_of r = Ret TRUE /\ trace_of r = called ++ [EvPostQuitMessage 0] /\
      world_of r = set_quit_flag (Some 0) hook.2
  | HookThrows e =>
      result_of r = Throw (HookException e) /\ trace_of r = called /\
      world_of r = hook.2
  | HookNeverReturns =>
      result_of r = Halt HookHalts /\ trace_of r = called
  end.
Proof.
  intros Ha r hook called. subst r hook called.
  rewrite (WndProc_associated h w hWnd WM_CLOSE wParam lParam p) by done.
  rewrite switch_close by apply Ha.
  destruct (OnClose h p w) as [[[]| |] w1]; simpl; done.
Qed.

End Routing.

(** ** The exception type *)
Section Exception.
Context {D : Type}.
Implicit Types (w : World D) (h : Hooks D).

Lemma append_assoc (a b c : string) : (a +:+ b) +:+ c = a +:+ (b +:+ c).
Proof. induction a as [|x a IH]; [reflexivity | exact (f_equal (String x) IH)]. Qed.

Lemma append_empty_r (a : string) : a +:+ "" = a.
Proof. induction a as [|x a IH]; [reflexivity | exact (f_equal (String x) IH)]. Qed.

Lemma ApplicationException_ctor_eq lpInfo w :
  ApplicationException_ctor lpInfo w
  = (Ret (ApplicationException
            (lpInfo +:+ " | Error code : " +:+ pretty (last_error w))),
     w, [EvGetLastError]).
Proof.
  unfold ApplicationException_ctor, GetLastError, bind, log, get, ret.
  change ("" +:+ lpInfo) with lpInfo. by rewrite append_assoc.
Qed.

Lemma throw_ApplicationException_eq {A} lpInfo w :
  throw_ApplicationException (A := A) lpInfo w
  = (Throw (ApplicationException
              (lpInfo +:+ " | Error code : " +:+ pretty (last_error w))),
     w, [EvGetLastError]).
Proof.
  unfold throw_ApplicationException, bind.
  rewrite ApplicationException_ctor_eq. reflexivity.
Qed.

(** C8.  The message built at construction is the description, the
    separator, and the decimal rendering of the last-error code read during
    construction.  It contains both, construction changes nothing, and both
    report actions show that same text whatever the last-error code is when
    they run, without reading it again. *)
Theorem ApplicationException_message (lpInfo : string) (w w_report : World D) :
  let r := ApplicationException_ctor lpInfo w in
  let text := lpInfo +:+ " | Error code : " +:+ pretty (last_error w) in
  result_of r = Ret (ApplicationException text)
  /\ world_of r = w
  /\ contains text lpInfo
  /\ contains text (pretty (last_error w))
  /\ trace_of (ShowMessageBox text w_report)
     = [EvMessageBoxW NULL text NULL MB_ICONERROR]
  /\ trace_of (ShowDebugOutput text w_report) = [EvOutputDebugStringW text].
Proof.
  intros r text. subst r. rewrite ApplicationException_ctor_eq.
  repeat split.
  - exists "", (" | Error code : " +:+ pretty (last_error w)). reflexivity.
  - exists (lpInfo +:+ " | Error code : "), "".
    unfold text. by rewrite append_empty_r, append_assoc.
Qed.

End Exception.

(** ** Where exceptions come from *)
Section Provenance.
Context {D : Type}.
Implicit Types (w : World D) (h : Hooks D).

Lemma only_hooks_bind {A B} (m : M D A) (k : A -> M D B) :
  throws_only_from_hooks m -> (forall a, throws_only_from_hooks (k a)) ->
  throws_only_from_hooks (bind m k).
Proof.
  intros Hm Hk w s. unfold bind, result_of.
  specialize (Hm w s). unfold result_of in Hm.
  destruct (m w) as [[[a|e|y] w1] t1]; simpl in *;
    [|intros [= ->]; by apply Hm|discriminate].
  specialize (Hk a w1 s). unfold result_of in Hk.
  destruct (k a w1) as [[o w2] t2]; simpl in *. exact Hk.
Qed.

Lemma only_hooks_ret {A} (a : A) : throws_only_from_hooks (D := D) (ret a).
Proof. intros w s. done. Qed.

Lemma only_hooks_log e : throws_only_from_hooks (D := D) (log e).
Proof. intros w s. done. Qed.

Lemma only_hooks_get : throws_only_from_hooks (D := D) get.
Proof. intros w s. done. Qed.

Lemma only_hooks_modify f : throws_only_from_hooks (D := D) (modify f).
Proof. intros w s. done. Qed.

Lemma only_hooks_stop {A} y : throws_only_from_hooks (D := D) (A := A) (stop y).
Proof. intros w s. done. Qed.

Lemma only_hooks_invoke h p c : throws_only_from_hooks (invoke h p c).
Proof.
  unfold invoke. apply only_hooks_bind; [apply only_hooks_get|]. intros w0.
  destruct (shells w0 !! p); [|apply only_hooks_stop].
  apply only_hooks_bind; [apply only_hooks_log|]. intros _ w s.
  unfold result_of. destruct (hook_body h p c w) as [[b| |] w1]; done.
Qed.

Create HintDb only_hooks.
#[local] Hint Resolve only_hooks_ret only_hooks_log only_hooks_get
  only_hooks_modify only_hooks_stop only_hooks_invoke : only_hooks.

Ltac only_hooks :=
  repeat first
    [ solve [auto with only_hooks]
    | apply only_hooks_bind; [|intros ?]
    | match goal with
      | |- throws_only_from_hooks (match ?x with _ => _ end) => destruct x
      | |- throws_only_from_hooks (if ?x then _ else _) => destruct x
      end ].

Lemma only_hooks_find_shell hWnd uMsg lParam :
  throws_only_from_hooks (D := D) (find_shell hWnd uMsg lParam).
Proof.
  unfold find_shell, SetWindowLongPtr, GetWindowLongPtr, write_m_hWnd.
  only_hooks.
Qed.

Lemma only_hooks_switch h p hWnd uMsg wParam lParam :
  throws_only_from_hooks (switch_uMsg h p hWnd uMsg wParam lParam).
Proof.
  unfold switch_uMsg, BeginPaint, EndPaint, PostQuitMessage.
  only_hooks.
Qed.

(** The window procedure throws nothing of its own. *)
Lemma only_hooks_WndProc h hWnd uMsg wParam lParam :
  throws_only_from_hooks (WndProc h hWnd uMsg wParam lParam).
Proof.
  unfold WndProc, DefWindowProc.
  apply only_hooks_bind; [apply only_hooks_find_shell|]. intros p.
  apply only_hooks_bind.
  - destruct (p =? NULL); [apply only_hooks_ret | apply only_hooks_switch].
  - intros [r|]; only_hooks.
Qed.

Lemma only_hooks_DispatchMessageW h msg :
  throws_only_from_hooks (DispatchMessageW (WndProc h) msg).
Proof.
  unfold DispatchMessageW, call_window_proc.
  pose proof (only_hooks_WndProc h). only_hooks.
Qed.

End Provenance.

(** ** The pump operations *)
Section Pump.
Context {D : Type}.
Implicit Types (w : World D) (h : Hooks D).

Lemma GetMessageW_never_throws msg a b c w e :
  result_of (GetMessageW (D := D) msg a b c w) <> Throw e.
Proof.
  unfold GetMessageW, bind, log, get, modify, ret, stop, result_of. simpl.
  destruct (retrieval_error (stubs w)); [done|].
  destruct (queue w); [|done]. destruct (quit_flag w); done.
Qed.

(** [GetMessageW] answers [0] only with a [WM_QUIT] record, and [-1] only
    when retrieval fails. *)
Lemma GetMessageW_zero_is_quit msg a b c w m :
  result_of (GetMessageW (D := D) msg a b c w) = Ret (0, m) -> message m = WM_QUIT.
Proof.
  unfold GetMessageW, bind, log, get, modify, ret, stop, result_of. simpl.
  destruct (retrieval_error (stubs w)); [done|].
  destruct (queue w) as [|m' q]; simpl.
  - destruct (quit_flag w); [|done]. by intros [= <-].
  - destruct (Z.eqb_spec (message m') WM_QUIT); [|done]. by intros [= <-].
Qed.

Lemma GetMessageW_fails_iff msg a b c w :
  (exists m, result_of (GetMessageW (D := D) msg a b c w) = Ret (-1, m))
  <-> is_Some (retrieval_error (stubs w)).
Proof.
  unfold GetMessageW, bind, log, get, modify, ret, stop, result_of. simpl.
  destruct (retrieval_error (stubs w)) as [code|]; simpl.
  - split; [by eexists | by exists msg].
  - split; [|by intros [? ?]]. intros [m Hm]. exfalso.
    destruct (queue w) as [|m' q]; simpl in Hm.
    + destruct (quit_flag w); done.
    + destruct (message m' =? WM_QUIT); done.
Qed.

(** [WaitMessage] in terms of the retrieval and the dispatch. *)
Lemma WaitMessage_eq h w :
  WaitMessage h w
  = match GetMessageW MSG_zero NULL 0 0 w with
    | (Ret (v, msg), w1, t1) =>
        if v =? -1 then
          (Throw (ApplicationException
                    ("Failed to get a message (GetMessageW)"
                       +:+ " | Error code : " +:+ pretty (last_error w1))),
           w1, t1 ++ [EvGetLastError])
        else
          let d := DispatchMessageW (WndProc h) msg w1 in
          (discard (result_of d), world_of d,
           t1 ++ EvTranslateMessage msg :: trace_of d)
    | (Throw e, w1, t1) => (Throw e, w1, t1)
    | (Halt y, w1, t1) => (Halt y, w1, t1)
    end.
Proof.
  unfold WaitMessage, bind at 1.
  destruct (GetMessageW MSG_zero NULL 0 0 w) as [[[[v msg]|e|y] w1] t1];
    try reflexivity.
  unfold bind at 1. simpl.
  destruct (v =? -1).
  - rewrite throw_ApplicationException_eq. reflexivity.
  - unfold ret at 1. unfold bind, TranslateMessage, log, ret. simpl.
    destruct (DispatchMessageW (WndProc h) msg w1) as [[[r|e|y] w2] t2];
      simpl; rewrite ?app_nil_r; reflexivity.
Qed.

(** [PollMessage] in terms of the retrieval and the dispatch. *)
Lemma PollMessage_eq h w :
  PollMessage h w
  = match PeekMessageW MSG_zero NULL 0 0 PM_REMOVE w with
    | (Ret (v, msg), w1, t1) =>
        let d := DispatchMessageW (WndProc h) msg w1 in
        (discard (result_of d), world_of d,
         t1 ++ EvTranslateMessage msg :: trace_of d)
    | (Throw e, w1, t1) => (Throw e, w1, t1)
    | (Halt y, w1, t1) => (Halt y, w1, t1)
    end.
Proof.
  unfold PollMessage, bind at 1.
  destruct (PeekMessageW MSG_zero NULL 0 0 PM_REMOVE w) as [[[[v msg]|e|y] w1] t1];
    try reflexivity.
  unfold bind, TranslateMessage, log, ret. simpl.
  destruct (DispatchMessageW (WndProc h) msg w1) as [[[r|e|y] w2] t2];
    simpl; rewrite ?app_nil_r; reflexivity.
Qed.

Lemma DispatchMessageW_no_window h msg w :
  windows w !! hwnd msg = None ->
  DispatchMessageW (WndProc h) msg w = (Ret 0, w, [EvDispatchMessageW msg]).
Proof.
  intros Hm. unfold DispatchMessageW, bind, log, get, ret. simpl.
  rewrite Hm. reflexivity.
Qed.

Lemma DispatchMessageW_trace h msg w :
  exists t, trace_of (DispatchMessageW (WndProc h) msg w) = EvDispatchMessageW msg :: t.
Proof.
  unfold DispatchMessageW, bind, log, get, ret, trace_of. simpl.
  destruct (windows w !! hwnd msg).
  - destruct (call_window_proc _ _ _ _ _ w) as [[[r|e|y] w2] t2];
      simpl; by eexists.
  - by eexists.
Qed.

Lemma discard_only_hooks h msg w s :
  discard (result_of (DispatchMessageW (WndProc h) msg w))
  <> Throw (ApplicationException s).
Proof.
  pose proof (only_hooks_DispatchMessageW h msg w s) as H.
  destruct (result_of (DispatchMessageW (WndProc h) msg w)); simpl; congruence.
Qed.

(** C7.  [WaitMessage] ends in an [ApplicationException] exactly when
    [GetMessageW] answers [-1]; the exception then carries the retrieval
    description with the error code of the failed call, and nothing is
    translated or dispatched.  When [GetMessageW] answers anything else, the
    retrieved record is passed to [TranslateMessage] and then to
    [DispatchMessageW], and the call ends as the dispatch does. *)
Theorem WaitMessage_raises_iff_retrieval_fails h w :
  let g := GetMessageW MSG_zero NULL 0 0 w in
  let r := WaitMessage h w in
  ((exists s, result_of r = Throw (ApplicationException s))
   <-> (exists m, result_of g = Ret (-1, m)))
  /\ (forall m, result_of g = Ret (-1, m) ->
        result_of r
        = Throw (ApplicationException
                   ("Failed to get a message (GetMessageW) | Error code : "
                      +:+ pretty (last_error (world_of g))))
        /\ count is_translate (trace_of r) = 0%nat
        /\ count is_dispatch (trace_of r) = 0%nat)
  /\ (forall v m, result_of g = Ret (v, m) -> v <> -1 ->
        let d := DispatchMessageW (WndProc h) m (world_of g) in
        trace_of r = trace_of g ++ EvTranslateMessage m :: trace_of d
        /\ (exists t, trace_of d = EvDispatchMessageW m :: t)
        /\ result_of r = discard (result_of d)
        /\ world_of r = world_of d).
Proof.
  intros g r. subst r. rewrite WaitMessage_eq. fold g.
  pose proof (GetMessageW_never_throws MSG_zero NULL 0 0 w) as Hnt. fold g in Hnt.
  assert (Hg : trace_of g = [EvGetMessageW NULL 0 0]).
  { subst g. unfold GetMessageW, bind, log, get, modify, ret, stop, trace_of. simpl.
    destruct (retrieval_error (stubs w)); [done|].
    destruct (queue w); [|done]. destruct (quit_flag w); done. }
  destruct g as [[[[v msg]|e|y] w1] t1]; simpl in *.
  - destruct (Z.eqb_spec v (-1)) as [->|Hv].
    + split; [split; by eexists|]. split.
      * intros m [= <-]. subst t1. done.
      * intros v m [= <- <-] Hv. done.
    + split; [|split].
      * split; [intros [s Hs]; by apply discard_only_hooks in Hs|].
        intros [m [= -> _]]. done.
      * intros m [= -> _]. done.
      * intros v' m [= <- <-] _. repeat split.
        apply DispatchMessageW_trace.
  - by destruct (Hnt e).
  - split; [split; intros [? ?]; done|]. split; intros; done.
Qed.

(** C10.  When [GetMessageW] answers [0], the record it retrieved is a
    [WM_QUIT] record, and [WaitMessage] treats it as any other: it throws no
    [ApplicationException], passes the record to [TranslateMessage] and
    [DispatchMessageW], and returns [tt] whenever the dispatch returns, as
    it does for a quit record addressed to no window.  The outcome of either
    pump operation is the outcome of its dispatch with the value dropped, so
    the answer of the retrieval call never reaches the caller. *)
Theorem WaitMessage_on_quit h w m :
  let g := GetMessageW MSG_zero NULL 0 0 w in
  result_of g = Ret (0, m) ->
  let r := WaitMessage h w in
  let d := DispatchMessageW (WndProc h) m (world_of g) in
  message m = WM_QUIT
  /\ (forall s, result_of r <> Throw (ApplicationException s))
  /\ trace_of r = trace_of g ++ EvTranslateMessage m :: trace_of d
  /\ result_of r = discard (result_of d)
  /\ (windows (world_of g) !! hwnd m = None ->
      r = (Ret tt, world_of g,
           [EvGetMessageW NULL 0 0; EvTranslateMessage m; EvDispatchMessageW m]))
  /\ (forall w0 v m0,
        result_of (PeekMessageW MSG_zero NULL 0 0 PM_REMOVE w0) = Ret (v, m0) ->
        result_of (PollMessage h w0)
        = discard (result_of (DispatchMessageW (WndProc h) m0
                     (world_of (PeekMessageW MSG_zero NULL 0 0 PM_REMOVE w0))))).
Proof.
  intros g Hg r d.
  split; [by eapply GetMessageW_zero_is_quit|].
  assert (Ht : trace_of g = [EvGetMessageW NULL 0 0]).
  { subst g. unfold GetMessageW, bind, log, get, modify, ret, stop, trace_of. simpl.
    destruct (retrieval_error (stubs w)); [done|].
    destruct (queue w); [|done]. destruct (quit_flag w); done. }
  subst r d. rewrite WaitMessage_eq. fold g.
  destruct g as [[[[v msg]|e|y] w1] t1]; simpl in *; try done.
  injection Hg as -> ->. simpl. subst t1.
  split; [intros s; apply discard_only_hooks|].
  split; [reflexivity|]. split; [reflexivity|]. split.
  - intros Hn. rewrite DispatchMessageW_no_window by done. reflexivity.
  - intros w0 v m0 Hp. rewrite PollMessage_eq.
    destruct (PeekMessageW MSG_zero NULL 0 0 PM_REMOVE w0) as [[[[v' msg]|e|y] w2] t2];
      simpl in *; try done.
    by injection Hp as -> ->.
Qed.

(** C1, as the code has it.  With nothing pending, [PollMessage] still calls
    [TranslateMessage] and [DispatchMessageW], on the zero-initialised
    record; that record names no window, so no window procedure is entered,
    no hook is called, and the state is left as it was. *)
Theorem PollMessage_nothing_pending h w :
  nothing_pending w ->
  windows w !! NULL = None ->
  let r := PollMessage h w in
  r = (Ret tt, w,
       [EvPeekMessageW NULL 0 0 PM_REMOVE; EvTranslateMessage MSG_zero;
        EvDispatchMessageW MSG_zero])
  /\ count is_hook (trace_of r) = 0%nat
  /\ count is_WndProc (trace_of r) = 0%nat.
Proof.
  intros [Hq Hf] Hn r.
  assert (Hr : r = (Ret tt, w,
       [EvPeekMessageW NULL 0 0 PM_REMOVE; EvTranslateMessage MSG_zero;
        EvDispatchMessageW MSG_zero])).
  { subst r. rewrite PollMessage_eq.
    unfold PeekMessageW, bind, log, get, ret. simpl. rewrite Hq, Hf. simpl.
    rewrite DispatchMessageW_no_window by done. reflexivity. }
  rewrite Hr. done.
Qed.

End Pump.

(** ** Construction *)
Section Construction.
Context {D : Type}.
Implicit Types (w : World D) (h : Hooks D).

(** The state when [RegisterClassW] is called: the storage at [this] holds a
    shell whose [m_hInstance] is the module handle. *)
Lemma ctor_until_registration h this name nW nH x y st ex w :
  exists w1,
    w1 = at_creation this w /\
    stubs w1 = stubs w /\ windows w1 = windows w /\
    last_error w1 = last_error w /\
    (exists a, shells w1 !! this = Some a /\ m_hInstance a = module_handle (stubs w)) /\
    Application_ctor h this name nW nH x y st ex w
    = match register_plan (stubs w) with
      | RegisterFails c =>
          (Throw (ApplicationException
                    ("Failed to register the window class (RegisterClassW)"
                       +:+ " | Error code : " +:+ pretty c)),
           set_last_error c w1,
           [EvGetModuleHandleW NULL;
            EvRegisterClassW {| wc_hInstance := module_handle (stubs w);
                                wc_lpszClassName := name |};
            EvGetLastError])
      | RegisterGives _ =>
          match
            (hWnd <- CreateWindowExW (WndProc (under_construction h)) ex name name st
                       x y nW nH NULL NULL (module_handle (stubs w)) this;;
             write_m_hWnd this hWnd;;;
             (if hWnd =? NULL then
                throw_ApplicationException "Failed to create a window (CreateWindowEx)"
              else ret tt);;;
             ShowWindow (WndProc (under_construction h)) hWnd SW_SHOW;;;
             ret tt) w1
          with
          | (o, w2, t2) =>
              (o, w2,
               EvGetModuleHandleW NULL
                 :: EvRegisterClassW {| wc_hInstance := module_handle (stubs w);
                                        wc_lpszClassName := name |}
                 :: t2)
          end
      end.
Proof.
  set (w0 := match shells w !! this with
             | Some _ => w
             | None => set_shells
                 (<[this := {| m_hInstance := 0; m_hWnd := 0 |}]> (shells w)) w
             end).
  assert (H0 : exists a0, shells w0 !! this = Some a0).
  { subst w0. destruct (shells w !! this) as [a|] eqn:E; [by exists a|].
    eexists. simpl. apply lookup_insert_eq. }
  destruct H0 as [a0 Ha0].
  assert (Hs0 : stubs w0 = stubs w) by (subst w0; by destruct (shells w !! this)).
  assert (Hw0 : windows w0 = windows w) by (subst w0; by destruct (shells w !! this)).
  assert (He0 : last_error w0 = last_error w) by (subst w0; by destruct (shells w !! this)).
  exists (set_shells
            (<[this := {| m_hInstance := module_handle (stubs w);
                          m_hWnd := m_hWnd a0 |}]> (shells w0)) w0).
  split.
  { unfold at_creation. subst w0.
    destruct (shells w !! this) as [a|] eqn:E.
    - rewrite E in Ha0. injection Ha0 as <-. reflexivity.
    - simpl in Ha0. rewrite lookup_insert_eq in Ha0. injection Ha0 as <-.
      simpl. by rewrite insert_insert_eq. }
  split; [done|]. split; [done|]. split; [done|]. split.
  { eexists. split; [simpl; apply lookup_insert_eq | reflexivity]. }
  unfold Application_ctor.
  unfold bind at 1. unfold modify at 1. fold w0.
  unfold bind at 1. unfold GetModuleHandleW, bind at 1, log at 1, get at 1.
  unfold bind at 1. unfold ret at 1. cbn [app]. rewrite Hs0.
  unfold bind at 1. unfold write_m_hInstance, bind at 1, get at 1.
  rewrite Ha0. unfold modify at 1.
  unfold bind at 1. unfold RegisterClassW, bind at 1, log at 1.
  unfold bind at 1. unfold get at 1. cbn [stubs set_shells].
  rewrite Hs0.
  destruct (register_plan (stubs w)) as [c|atom].
  - unfold bind at 1. unfold modify at 1, ret at 1. cbn [app].
    change (0 =? 0) with true. cbv iota.
    unfold bind at 1. rewrite throw_ApplicationException_eq. reflexivity.
  - unfold ret at 1. cbn [app]. change (Z.pos atom =? 0) with false. cbv iota.
    unfold bind at 1. unfold ret at 1.
    match goal with |- context [bind ?m ?k ?w1] =>
      destruct (bind m k w1) as [[o w2] t2] end.
    destruct o; reflexivity.
Qed.

(** C4.  When [RegisterClassW] fails, construction ends in the
    [ApplicationException] for registration, carrying the error code of the
    failed call; the platform has been asked for the module handle, the
    registration and the error code, and never for a window. *)
Theorem ctor_registration_fails h this name nW nH x y st ex w code :
  register_plan (stubs w) = RegisterFails code ->
  let r := Application_ctor h this name nW nH x y st ex w in
  result_of r
  = Throw (ApplicationException
             ("Failed to register the window class (RegisterClassW) | Error code : "
                +:+ pretty code))
  /\ trace_of r
     = [EvGetModuleHandleW NULL;
        EvRegisterClassW {| wc_hInstance := module_handle (stubs w);
                            wc_lpszClassName := name |};
        EvGetLastError]
  /\ count is_create (trace_of r) = 0%nat
  /\ count is_WndProc (trace_of r) = 0%nat
  /\ windows (world_of r) = windows w.
Proof.
  intros Hreg r. subst r.
  destruct (ctor_until_registration h this name nW nH x y st ex w)
    as (w1 & _ & _ & Hw & _ & _ & ->).
  rewrite Hreg. repeat split. exact Hw.
Qed.

End Construction.

(** ** The binding of window and shell is stable *)
Section Binding.
Context {D : Type}.
Implicit Types (w : World D) (h : Hooks D).

Lemma bind_Ret {A B} (m : M D A) (k : A -> M D B) w b w' t :
  bind m k w = (Ret b, w', t) ->
  exists a w1 t1 t2,
    m w = (Ret a, w1, t1) /\ k a w1 = (Ret b, w', t2) /\ t = t1 ++ t2.
Proof.
  unfold bind. destruct (m w) as [[[a|e|y] w1] t1]; [|done..].
  destruct (k a w1) as [[o w2] t2] eqn:E. intros [= -> -> <-].
  by exists a, w1, t1, t2.
Qed.

Lemma world_of_bind {A B} (m : M D A) (k : A -> M D B) w :
  world_of (bind m k w)
  = match m w with
    | (Ret a, w1, _) => world_of (k a w1)
    | (_, w1, _) => w1
    end.
Proof.
  unfold bind, world_of. destruct (m w) as [[[a|e|y] w1] t1]; [|done..].
  by destruct (k a w1) as [[o w2] t2].
Qed.

Section Preserved.
Variable P : World D -> Prop.

Lemma preserves_bind {A B} (m : M D A) (k : A -> M D B) :
  preserves P m -> (forall a, preserves P (k a)) -> preserves P (bind m k).
Proof.
  intros Hm Hk w Hw. rewrite world_of_bind.
  specialize (Hm w Hw). unfold world_of in Hm.
  destruct (m w) as [[[a|e|y] w1] t1]; simpl in *; [|done..].
  by apply Hk.
Qed.

Lemma preserves_get_bind {A} (k : World D -> M D A) :
  (forall w0, P w0 -> P (world_of (k w0 w0))) -> preserves P (bind get k).
Proof. intros Hk w Hw. rewrite world_of_bind. simpl. by apply Hk. Qed.

Lemma preserves_ret {A} (a : A) : preserves P (ret a).
Proof. by intros w Hw. Qed.

Lemma preserves_log e : preserves P (log e).
Proof. by intros w Hw. Qed.

Lemma preserves_stop {A} y : preserves P (stop (A := A) y).
Proof. by intros w Hw. Qed.

Lemma preserves_modify f : (forall w, P w -> P (f w)) -> preserves P (modify f).
Proof. intros Hf w Hw. by apply Hf. Qed.

End Preserved.

Lemma preserves_invoke h s hw this p c :
  hooks_keep_bindings h -> preserves (bound s hw this) (invoke h p c).
Proof.
  intros Hk. unfold invoke. apply preserves_get_bind. intros w Hw.
  destruct (shells w !! p); [|done].
  rewrite world_of_bind. simpl. unfold world_of.
  destruct (Hk p c w) as (H1 & H2 & H3).
  destruct (hook_body h p c w) as [o w1]. simpl in *.
  destruct Hw as (? & ? & ?). unfold bound. by rewrite H1, H2, H3.
Qed.

Ltac preserves_bound :=
  repeat first
    [ apply preserves_ret | apply preserves_log | apply preserves_stop
    | apply preserves_invoke; assumption
    | apply preserves_modify; intros ? (? & ? & ?); by repeat split
    | apply preserves_bind; [|intros ?]
    | match goal with
      | |- preserves _ (match ?x with _ => _ end) => destruct x
      | |- preserves _ (if ?x then _ else _) => destruct x
      end ].

Lemma preserves_switch h s hw this p hWnd uMsg wParam lParam :
  hooks_keep_bindings h ->
  preserves (bound s hw this) (switch_uMsg h p hWnd uMsg wParam lParam).
Proof.
  intros Hk. unfold switch_uMsg. destruct (route uMsg).
  - unfold BeginPaint, EndPaint.
    apply preserves_bind; [|intros ?; preserves_bound].
    apply preserves_bind; [preserves_bound|]. intros _.
    apply preserves_get_bind. intros w (? & ? & ?).
    destruct (windows w !! hWnd); [|done].
    rewrite world_of_bind. simpl. by repeat split.
  - preserves_bound.
  - preserves_bound.
  - preserves_bound.
  - preserves_bound.
  - preserves_bound.
  - unfold PostQuitMessage. preserves_bound.
  - preserves_bound.
Qed.

(** What [WndProc] does once it has the shell pointer. *)
Lemma preserves_handling h s hw this p hWnd uMsg wParam lParam :
  hooks_keep_bindings h ->
  preserves (bound s hw this)
    (bind (if p =? NULL then ret None
           else switch_uMsg h p hWnd uMsg wParam lParam)
       (fun handled =>
          match handled with
          | Some r => ret r
          | None => DefWindowProc hWnd uMsg wParam lParam
          end)).
Proof.
  intros Hk. apply preserves_bind.
  - destruct (p =? NULL); [apply preserves_ret | by apply preserves_switch].
  - intros [r|]; unfold DefWindowProc; preserves_bound.
Qed.

Lemma preserves_WndProc h s hw this hWnd uMsg wParam lParam :
  hooks_keep_bindings h -> uMsg <> WM_NCCREATE ->
  preserves (bound s hw this) (WndProc h hWnd uMsg wParam lParam).
Proof.
  intros Hk Hm. unfold WndProc. apply preserves_bind.
  - intros w Hw. rewrite find_shell_other by done. unfold world_of. simpl.
    destruct (windows w !! hWnd); [done|]. destruct Hw as (? & ? & ?).
    by repeat split.
  - intros p. by apply preserves_handling.
Qed.

Lemma preserves_send_all h s hw this hWnd l :
  hooks_keep_bindings h -> Forall not_NCCREATE l ->
  preserves (bound s hw this) (send_all (WndProc h) hWnd l).
Proof.
  intros Hk Hl. induction Hl as [|[[uMsg wp] lp] l Hx Hl IH]; simpl.
  - apply preserves_ret.
  - apply preserves_bind; [|intros _; exact IH].
    unfold call_window_proc. apply preserves_bind; [apply preserves_log|].
    intros _. by apply preserves_WndProc.
Qed.

End Binding.

(** ** Successful construction *)
Section Creation.
Context {D : Type}.
Implicit Types (w : World D) (h : Hooks D).

(** Handling [WM_NCCREATE] binds the window and the shell named by the
    creation parameters to each other. *)
Lemma WndProc_NCCREATE_binds h w hWnd wParam lParam cs this :
  hooks_keep_bindings h ->
  this <> NULL ->
  is_Some (windows w !! hWnd) ->
  create_structs w !! lParam = Some cs ->
  lpCreateParams cs = this ->
  is_Some (shells w !! this) ->
  bound (stubs w) hWnd this (world_of (WndProc h hWnd WM_NCCREATE wParam lParam w)).
Proof.
  intros Hk Hnz [v Hv] Hcs Hp [a Ha].
  unfold WndProc. rewrite world_of_bind.
  unfold find_shell. change (WM_NCCREATE =? WM_NCCREATE) with true. cbv iota.
  unfold bind at 1. unfold get at 1. rewrite Hcs, Hp.
  unfold bind at 1. unfold SetWindowLongPtr, bind at 1, log at 1.
  unfold bind at 1. unfold get at 1. rewrite Hv.
  change (GWLP_USERDATA =? GWLP_USERDATA) with true. cbv iota.
  unfold bind at 1. unfold modify at 1, ret at 1.
  unfold bind at 1. unfold write_m_hWnd, bind at 1, get at 1.
  cbn [shells set_windows]. rewrite Ha. unfold modify at 1, ret at 1.
  cbv beta iota.
  apply preserves_handling; [done|].
  repeat split; simpl.
  - apply lookup_insert_eq.
  - by rewrite lookup_insert_eq.
Qed.


Lemma CreateWindowExW_binds h w ex cls name st x y nW nH par menu hInst this hWnd w' t :
  hooks_keep_bindings h ->
  NCCREATE_once (stubs w) ->
  this <> NULL ->
  is_Some (shells w !! this) ->
  CreateWindowExW (WndProc h) ex cls name st x y nW nH par menu hInst this w
  = (Ret hWnd, w', t) ->
  hWnd <> NULL ->
  exists rest t',
    create_plan (stubs w) = CreateSends hWnd rest
    /\ bound (stubs w) hWnd this w'
    /\ t = EvCreateWindowExW ex cls name st x y nW nH par menu hInst this
             :: EvWndProc hWnd WM_NCCREATE 0 (cs_address (stubs w)) :: t'.
Proof.
  intros Hk [Honce _] Hnz Hs H Hh.
  unfold CreateWindowExW in H.
  apply bind_Ret in H as (? & w0 & ? & t0 & [= <- <- <-] & H & ->).
  apply bind_Ret in H as (? & ? & ? & ? & [= <- <- <-] & H & ->).
  destruct (create_plan (stubs w)) as [c|hp rest] eqn:Eplan.
  { apply bind_Ret in H as (? & ? & ? & ? & _ & [= <- _ _] & _). done. }
  specialize (Honce hp rest eq_refl).
  apply bind_Ret in H as (? & ? & ? & ? & [= <- <- <-] & H & ->).
  apply bind_Ret in H as (? & ? & ? & ? & [= <- <- <-] & H & ->).
  apply bind_Ret in H as (r & w1 & t1 & t2 & Hcall & H & ->).
  unfold call_window_proc in Hcall.
  apply bind_Ret in Hcall as (? & ? & ? & t1' & [= <- <- <-] & Hcall & ->).
  match type of Hcall with WndProc _ _ _ _ _ ?wa = _ =>
    match wa with context [<[_ := ?cs]> (create_structs w)] =>
      pose proof (WndProc_NCCREATE_binds h wa hp 0 (cs_address (stubs w)) cs this
                    Hk Hnz) as Hb
    end
  end.
  cbn [windows create_structs shells stubs set_create_structs set_windows] in Hb.
  rewrite !lookup_insert_eq in Hb.
  specialize (Hb (ex_intro _ _ eq_refl) eq_refl eq_refl Hs).
  rewrite Hcall in Hb. unfold world_of in Hb. simpl in Hb.
  destruct (r =? 0).
  { apply bind_Ret in H as (? & ? & ? & ? & _ & H & _).
    apply bind_Ret in H as (? & ? & ? & ? & _ & [= <- _ _] & _). done. }
  apply bind_Ret in H as (? & w2 & t3 & ? & Hsend & H & ->).
  apply bind_Ret in H as (? & ? & ? & ? & [= <- <- <-] & [= <- <- <-] & ->).
  pose proof (preserves_send_all h (stubs w) hp this hp rest Hk Honce w1 Hb) as Hb2.
  rewrite Hsend in Hb2. unfold world_of in Hb2. simpl in Hb2.
  exists rest. eexists. split; [done|]. split.
  - destruct Hb2 as (? & ? & ?). by repeat split.
  - simpl. reflexivity.
Qed.

Lemma class_hooks_keep_bindings h : hooks_keep_bindings (under_construction h).
Proof. intros this c w. destruct c; repeat split. Qed.

(** C5.  For every set of construction parameters, a shell at a non-null
    address, and a platform that sends [WM_NCCREATE] once: whenever
    construction returns, the platform's creation plan named a non-null
    handle, the first message the window procedure received was
    [WM_NCCREATE] for that handle, the shell's [m_hWnd] is that handle, and
    the window's user-data slot holds the address of the shell. *)
Theorem ctor_binds_handle h this name nW nH x y st ex w w' t :
  this <> NULL ->
  NCCREATE_once (stubs w) ->
  Application_ctor h this name nW nH x y st ex w = (Ret tt, w', t) ->
  exists hWnd rest,
    create_plan (stubs w) = CreateSends hWnd rest
    /\ hWnd <> NULL
    /\ first_WndProc t = Some (hWnd, WM_NCCREATE, 0, cs_address (stubs w))
    /\ m_hWnd <$> shells w' !! this = Some hWnd
    /\ windows w' !! hWnd = Some this
    /\ user_data w' hWnd = this.
Proof.
  intros Hnz Honce H.
  pose proof (class_hooks_keep_bindings h) as Hk.
  destruct (ctor_until_registration h this name nW nH x y st ex w)
    as (w1 & _ & Hs1 & Hw1 & _ & (a1 & Ha1 & _) & Heq).
  rewrite Heq in H. clear Heq.
  destruct (register_plan (stubs w)); [done|].
  match type of H with context [bind ?m ?k w1] =>
    destruct (bind m k w1) as [[o w2] t2] eqn:E end.
  injection H as Ho Hw Ht. subst o w2 t.
  apply bind_Ret in E as (hWnd & wa & ta & ? & Hcreate & E & ->).
  apply bind_Ret in E as (? & wb & tb & ? & Hwrite & E & ->).
  apply bind_Ret in E as (? & wc & tc & ? & Hcheck & E & ->).
  apply bind_Ret in E as (? & wd & td & ? & Hshow & [= <- <-] & ->).
  destruct (Z.eqb_spec hWnd NULL) as [->|Hh].
  { by rewrite throw_ApplicationException_eq in Hcheck. }
  injection Hcheck as <- <-.
  rewrite <- Hs1 in Honce.
  destruct (CreateWindowExW_binds _ _ _ _ _ _ _ _ _ _ _ _ _ _ _ _ _
              Hk Honce Hnz (ex_intro _ a1 Ha1) Hcreate Hh)
    as (rest & t' & Hplan & Hb & ->).
  rewrite Hs1 in Hplan, Hb, Honce.
  assert (Hbb : bound (stubs w) hWnd this wb).
  { unfold write_m_hWnd in Hwrite.
    apply bind_Ret in Hwrite as (? & ? & ? & ? & [= <- <- <-] & Hwrite & ->).
    destruct Hb as (Hb1 & Hb2 & Hb3).
    destruct (shells wa !! this) as [a|] eqn:Ea; [|done].
    injection Hwrite as <- <-. repeat split; simpl; try done.
    by rewrite lookup_insert_eq. }
  assert (Hbd : bound (stubs w) hWnd this wd).
  { unfold ShowWindow in Hshow.
    apply bind_Ret in Hshow as (? & ? & ? & ? & [= <- <- <-] & Hshow & ->).
    apply bind_Ret in Hshow as (? & ? & ? & ? & [= <- <- <-] & Hshow & ->).
    destruct (windows wb !! hWnd); [|by injection Hshow as <- <- <-].
    apply bind_Ret in Hshow as (? & ? & ? & ? & Hsend & [= <- <- <-] & ->).
    destruct Honce as [_ Hshowplan].
    assert (Hsb : stubs wb = stubs w) by apply Hbb. rewrite Hsb in Hsend.
    pose proof (preserves_send_all _ (stubs w) hWnd this hWnd _ Hk Hshowplan wb Hbb) as Hp.
    rewrite Hsend in Hp. exact Hp. }
  exists hWnd, rest. destruct Hbd as (_ & Hwin & Hsh).
  repeat split; try done.
  - simpl. by rewrite Hs1.
  - unfold user_data. by rewrite Hwin.
Qed.

End Creation.

(** ** The theorems on concrete runs *)
Section Runs.
Import Scenario.

Lemma shown_associated s : associated (shown s) the_hwnd the_shell.
Proof. repeat split; [done | by eexists]. Defined.

Lemma default_hooks_keep_bindings : hooks_keep_bindings (D := unit) default_hooks.
Proof. intros this c w. destruct c; repeat split. Defined.

Lemma stubs_ok_NCCREATE_once : NCCREATE_once stubs_ok.
Proof.
  split.
  - intros hWnd rest [= <- <-]. repeat constructor. discriminate.
  - repeat constructor. discriminate.
Defined.

(** The example construction returns, and leaves the state [shown]. *)
Lemma demo_run_returns :
  demo_run = (Ret tt, world_of demo_run, trace_of demo_run)
  /\ world_of demo_run = shown stubs_ok.
Proof. split; vm_compute; reflexivity. Defined.

(** C1: polling the idle example window calls [TranslateMessage] and
    [DispatchMessageW], so the operation is not free of translation and
    dispatch. *)
Lemma PollMessage_translates_when_idle :
  ~ poll_is_no_op default_hooks (shown stubs_ok).
Proof.
  intros H. destruct (H (conj eq_refl eq_refl)) as [H1 _].
  vm_compute in H1. discriminate H1.
Defined.

Lemma PollMessage_nothing_pending_witness :
  nothing_pending (shown stubs_ok) /\
  PollMessage default_hooks (shown stubs_ok)
  = (Ret tt, shown stubs_ok,
     [EvPeekMessageW NULL 0 0 PM_REMOVE; EvTranslateMessage MSG_zero;
      EvDispatchMessageW MSG_zero]).
Proof.
  assert (H : nothing_pending (shown stubs_ok)) by (split; reflexivity).
  split; [exact H|].
  exact (proj1 (PollMessage_nothing_pending default_hooks (shown stubs_ok) H eq_refl)).
Defined.

(** C2: with [OnPaint] throwing, the paint session is opened and never
    closed. *)
Lemma paint_throws_skips_EndPaint :
  ~ paint_always_bracketed paint_throws (shown stubs_ok) the_hwnd the_shell.
Proof.
  intros H. destruct (H (shown_associated stubs_ok)) as (_ & _ & H3).
  vm_compute in H3. discriminate H3.
Defined.

Lemma WndProc_paint_witness :
  trace_of (WndProc default_hooks the_hwnd WM_PAINT 0 0 (shown stubs_ok))
  = [EvGetWindowLongPtr the_hwnd GWLP_USERDATA; EvBeginPaint the_hwnd;
     EvHook the_shell (CallOnPaint 77 the_paint); EvEndPaint the_hwnd the_paint]
  /\ trace_of (WndProc paint_throws the_hwnd WM_PAINT 0 0 (shown stubs_ok))
  = [EvGetWindowLongPtr the_hwnd GWLP_USERDATA; EvBeginPaint the_hwnd;
     EvHook the_shell (CallOnPaint 77 the_paint)].
Proof.
  split.
  - exact (proj2 (proj2 (WndProc_paint default_hooks (shown stubs_ok) the_hwnd 0 0
                           the_shell (shown_associated stubs_ok)))).
  - exact (proj1 (proj2 (proj2 (WndProc_paint paint_throws (shown stubs_ok)
                           the_hwnd 0 0 the_shell (shown_associated stubs_ok))))).
Defined.

(** The session that the throwing [OnPaint] leaves behind is still open. *)
Example paint_session_left_open :
  paint_sessions (world_of (WndProc paint_throws the_hwnd WM_PAINT 0 0 (shown stubs_ok)))
  = [the_hwnd]
  /\ paint_sessions (world_of (WndProc default_hooks the_hwnd WM_PAINT 0 0 (shown stubs_ok)))
  = [].
Proof. split; reflexivity. Qed.

(** The pointer position is unpacked as two signed 16-bit halves. *)
Example mouse_move_coordinates :
  trace_of (WndProc default_hooks the_hwnd WM_MOUSEMOVE 0 0xFFFE0005 (shown stubs_ok))
  = [EvGetWindowLongPtr the_hwnd GWLP_USERDATA; EvHook the_shell (CallOnMouseMove 5 (-2))].
Proof. reflexivity. Qed.

(** C3: with [OnClose] throwing, no quit signal is posted. *)
Lemma close_throws_skips_PostQuitMessage :
  ~ close_always_quits close_throws (shown stubs_ok) the_hwnd the_shell.
Proof.
  intros H. destruct (H (shown_associated stubs_ok)) as (_ & H2).
  vm_compute in H2. discriminate H2.
Defined.

Lemma WndProc_close_witness :
  world_of (WndProc default_hooks the_hwnd WM_CLOSE 0 0 (shown stubs_ok)) = quitting
  /\ world_of (WndProc close_throws the_hwnd WM_CLOSE 0 0 (shown stubs_ok))
     = shown stubs_ok.
Proof.
  split.
  - exact (proj2 (proj2 (proj2 (WndProc_close default_hooks (shown stubs_ok)
                           the_hwnd 0 0 the_shell (shown_associated stubs_ok))))).
  - exact (proj2 (proj2 (proj2 (WndProc_close close_throws (shown stubs_ok)
                           the_hwnd 0 0 the_shell (shown_associated stubs_ok))))).
Defined.

Lemma ctor_registration_fails_witness :
  register_plan stubs_no_class = RegisterFails 1410 /\
  result_of (Application_ctor default_hooks the_shell "Demo" 640 480 0 0
               WS_OVERLAPPEDWINDOW WS_EX_COMPOSITED (before stubs_no_class))
  = Throw (ApplicationException
             "Failed to register the window class (RegisterClassW) | Error code : 1410").
Proof.
  split; [reflexivity|].
  exact (proj1 (ctor_registration_fails default_hooks the_shell "Demo" 640 480 0 0
                  WS_OVERLAPPEDWINDOW WS_EX_COMPOSITED (before stubs_no_class)
                  1410 eq_refl)).
Defined.

Lemma ctor_binds_handle_witness :
  exists hWnd rest,
    create_plan stubs_ok = CreateSends hWnd rest
    /\ hWnd <> NULL
    /\ first_WndProc (trace_of demo_run) = Some (hWnd, WM_NCCREATE, 0, 0x7000)
    /\ m_hWnd <$> shells (world_of demo_run) !! the_shell = Some hWnd
    /\ windows (world_of demo_run) !! hWnd = Some the_shell
    /\ user_data (world_of demo_run) hWnd = the_shell.
Proof.
  apply (ctor_binds_handle default_hooks the_shell "Demo"
           CW_USEDEFAULT CW_USEDEFAULT CW_USEDEFAULT CW_USEDEFAULT
           WS_OVERLAPPEDWINDOW WS_EX_COMPOSITED (before stubs_ok)).
  - discriminate.
  - exact stubs_ok_NCCREATE_once.
  - exact (proj1 demo_run_returns).
Defined.

Lemma WndProc_other_messages_witness :
  trace_of (WndProc handles_all the_hwnd WM_CREATE 0 0 (shown stubs_ok))
  = [EvGetWindowLongPtr the_hwnd GWLP_USERDATA;
     EvHook the_shell (CallHandleOtherMessages WM_CREATE)]
  /\ trace_of (WndProc default_hooks the_hwnd WM_CREATE 0 0 (shown stubs_ok))
  = [EvGetWindowLongPtr the_hwnd GWLP_USERDATA;
     EvHook the_shell (CallHandleOtherMessages WM_CREATE);
     EvDefWindowProc the_hwnd WM_CREATE 0 0].
Proof.
  assert (Hr : WM_CREATE ∉ routing_set).
  { apply route_default_iff. reflexivity. }
  assert (Hn : WM_CREATE <> WM_NCCREATE) by discriminate.
  split.
  - refine (proj1 (proj1 (proj2 (WndProc_other_messages handles_all (shown stubs_ok)
                     the_hwnd WM_CREATE 0 0 the_shell Hr Hn
                     (shown_associated stubs_ok)) TRUE eq_refl) _)).
    discriminate.
  - exact (proj1 (proj2 (proj2 (WndProc_other_messages default_hooks (shown stubs_ok)
                     the_hwnd WM_CREATE 0 0 the_shell Hr Hn
                     (shown_associated stubs_ok)) FALSE eq_refl) eq_refl)).
Defined.

Lemma WndProc_without_association_witness :
  user_data (before stubs_ok) the_hwnd = NULL /\
  trace_of (WndProc handles_all the_hwnd WM_KEYDOWN 0x41 0 (before stubs_ok))
  = [EvGetWindowLongPtr the_hwnd GWLP_USERDATA;
     EvDefWindowProc the_hwnd WM_KEYDOWN 0x41 0].
Proof.
  split; [reflexivity|].
  refine (proj1 (WndProc_without_association handles_all (before stubs_ok)
                   the_hwnd WM_KEYDOWN 0x41 0 _ eq_refl)).
  discriminate.
Defined.

Lemma WaitMessage_raises_iff_retrieval_fails_witness :
  result_of (WaitMessage default_hooks (shown stubs_no_retrieval))
  = Throw (ApplicationException
             "Failed to get a message (GetMessageW) | Error code : 1400")
  /\ trace_of (WaitMessage default_hooks (set_queue [key_message] (shown stubs_ok)))
     = [EvGetMessageW NULL 0 0; EvTranslateMessage key_message;
        EvDispatchMessageW key_message;
        EvWndProc the_hwnd WM_KEYDOWN 0x41 0;
        EvGetWindowLongPtr the_hwnd GWLP_USERDATA;
        EvHook the_shell (CallOnKeyDown 0x41)].
Proof.
  split.
  - exact (proj1 (proj1 (proj2 (WaitMessage_raises_iff_retrieval_fails default_hooks
                    (shown stubs_no_retrieval))) MSG_zero eq_refl)).
  - exact (proj1 (proj2 (proj2 (WaitMessage_raises_iff_retrieval_fails default_hooks
                    (set_queue [key_message] (shown stubs_ok)))) 1 key_message
                    eq_refl ltac:(discriminate))).
Defined.

Lemma WaitMessage_on_quit_witness :
  result_of (GetMessageW MSG_zero NULL 0 0 quitting) = Ret (0, quit_message 0) /\
  WaitMessage default_hooks quitting
  = (Ret tt, shown stubs_ok,
     [EvGetMessageW NULL 0 0; EvTranslateMessage (quit_message 0);
      EvDispatchMessageW (quit_message 0)]).
Proof.
  split; [reflexivity|].
  exact (proj1 (proj2 (proj2 (proj2 (proj2
           (WaitMessage_on_quit default_hooks quitting (quit_message 0) eq_refl)))))
           eq_refl).
Defined.

End Runs.

(** ** The input messages *)
Section Input.
Context {D : Type}.
Implicit Types (w : World D) (h : Hooks D).

Lemma routing_set_not_NCCREATE uMsg : uMsg ∈ routing_set -> uMsg <> WM_NCCREATE.
Proof.
  unfold routing_set. intros Hin ->.
  repeat (apply elem_of_cons in Hin as [Hin|Hin]; [discriminate Hin|]).
  by apply elem_of_nil in Hin.
Qed.

(** A case label that only calls its hook. *)
Lemma switch_plain h w hWnd uMsg wParam lParam p c :
  plain_call uMsg wParam lParam = Some c -> is_Some (shells w !! p) ->
  switch_uMsg h p hWnd uMsg wParam lParam w
  = match hook_body h p c w with
    | (HookReturns _, w1) => (Ret (Some TRUE), w1, [EvHook p c])
    | (HookThrows e, w1) => (Throw (HookException e), w1, [EvHook p c])
    | (HookNeverReturns, w1) => (Halt HookHalts, w1, [EvHook p c])
    end.
Proof.
  intros Hc Hs. unfold plain_call in Hc. unfold switch_uMsg, bind.
  destruct (route uMsg); try discriminate Hc; injection Hc as <-;
    rewrite invoke_eq by done; simpl;
    match goal with |- context [?hook h p ?a w] =>
      destruct (hook h p a w) as [[[]| |] w1] end ||
    match goal with |- context [?hook h p ?a ?b w] =>
      destruct (hook h p a b w) as [[[]| |] w1] end;
    reflexivity.
Qed.

(** [WndProc] on a message of such a label. *)
Lemma WndProc_plain h w hWnd uMsg wParam lParam p c :
  plain_call uMsg wParam lParam = Some c -> uMsg <> WM_NCCREATE ->
  associated w hWnd p ->
  WndProc h hWnd uMsg wParam lParam w
  = match hook_body h p c w with
    | (HookReturns _, w1) =>
        (Ret TRUE, w1, [EvGetWindowLongPtr hWnd GWLP_USERDATA; EvHook p c])
    | (HookThrows e, w1) =>
        (Throw (HookException e), w1,
         [EvGetWindowLongPtr hWnd GWLP_USERDATA; EvHook p c])
    | (HookNeverReturns, w1) =>
        (Halt HookHalts, w1, [EvGetWindowLongPtr hWnd GWLP_USERDATA; EvHook p c])
    end.
Proof.
  intros Hc Hm Ha.
  rewrite (WndProc_associated h w hWnd uMsg wParam lParam p) by done.
  rewrite (switch_plain h w hWnd uMsg wParam lParam p c) by (done || apply Ha).
  destruct (hook_body h p c w) as [[b| |] w1]; reflexivity.
Qed.


(** X1.  A message with a case label of its own ends in [WndProc]: exactly
    one hook is called, [HandleOtherMessages] and [DefWindowProc] never see
    the message, and when the hook returns the procedure returns [TRUE]. *)
Theorem WndProc_routed_is_final h w hWnd uMsg wParam lParam p :
  uMsg ∈ routing_set ->
  associated w hWnd p ->
  let r := WndProc h hWnd uMsg wParam lParam w in
  count is_hook (trace_of r) = 1%nat
  /\ count is_HandleOther (trace_of r) = 0%nat
  /\ count is_DefWindowProc (trace_of r) = 0%nat
  /\ (forall v, result_of r = Ret v -> v = TRUE)
  /\ (forall s, result_of r <> Throw (ApplicationException s)).
Proof.
  intros Hin Ha r. subst r.
  pose proof (routing_set_not_NCCREATE _ Hin) as Hm.
  assert (Hplain : forall c, plain_call uMsg wParam lParam = Some c ->
            is_HandleOther (EvHook p c) = false ->
            let r := WndProc h hWnd uMsg wParam lParam w in
            count is_hook (trace_of r) = 1%nat
            /\ count is_HandleOther (trace_of r) = 0%nat
            /\ count is_DefWindowProc (trace_of r) = 0%nat
            /\ (forall v, result_of r = Ret v -> v = TRUE)
            /\ (forall s, result_of r <> Throw (ApplicationException s))).
  { intros c Hc Hno r. subst r. rewrite (WndProc_plain h w hWnd uMsg wParam lParam p c) by done.
    destruct c; try discriminate Hno;
      match goal with |- context [hook_body h p ?c w] =>
        destruct (hook_body h p c w) as [[b| |] w1] end;
      repeat split; try done; by intros v [= <-]. }
  unfold routing_set in Hin.
  apply elem_of_cons in Hin as [->|Hin].
  { rewrite (WndProc_associated h w hWnd WM_PAINT wParam lParam p) by done.
    destruct Ha as (Hw & _ & Hs).
    rewrite switch_paint by (done || by eexists).
    destruct (OnPaint h p _ _ _) as [[[]| |] w1]; repeat split; try done.
    by intros v [= <-]. }
  repeat (apply elem_of_cons in Hin as [->|Hin]; [by eapply Hplain|]).
  apply elem_of_cons in Hin as [->|Hin]; [|by apply elem_of_nil in Hin].
  rewrite (WndProc_associated h w hWnd WM_CLOSE wParam lParam p) by done.
  rewrite switch_close by apply Ha.
  destruct (OnClose h p w) as [[[]| |] w1]; repeat split; try done.
  by intros v [= <-].
Qed.

(** X2.  A key message passes [wParam] to its hook unchanged and ignores
    [lParam]: the whole run is the same for every [lParam]. *)
Theorem WndProc_keyboard h w hWnd wParam lParam lParam' p :
  associated w hWnd p ->
  trace_of (WndProc h hWnd WM_KEYDOWN wParam lParam w)
  = [EvGetWindowLongPtr hWnd GWLP_USERDATA; EvHook p (CallOnKeyDown wParam)]
  /\ trace_of (WndProc h hWnd WM_KEYUP wParam lParam w)
  = [EvGetWindowLongPtr hWnd GWLP_USERDATA; EvHook p (CallOnKeyUp wParam)]
  /\ world_of (WndProc h hWnd WM_KEYDOWN wParam lParam w)
     = snd (OnKeyDown h p wParam w)
  /\ world_of (WndProc h hWnd WM_KEYUP wParam lParam w)
     = snd (OnKeyUp h p wParam w)
  /\ WndProc h hWnd WM_KEYDOWN wParam lParam w
     = WndProc h hWnd WM_KEYDOWN wParam lParam' w
  /\ WndProc h hWnd WM_KEYUP wParam lParam w
     = WndProc h hWnd WM_KEYUP wParam lParam' w.
Proof.
  intros Ha.
  rewrite !(WndProc_plain h w hWnd WM_KEYDOWN wParam _ p (CallOnKeyDown wParam))
    by done.
  rewrite !(WndProc_plain h w hWnd WM_KEYUP wParam _ p (CallOnKeyUp wParam))
    by done.
  simpl. destruct (OnKeyDown h p wParam w) as [[[]| |] w1];
    destruct (OnKeyUp h p wParam w) as [[[]| |] w2]; done.
Qed.

(** X3.  Each button message calls its hook with the virtual-key code of
    its button, the same for press and release; [wParam] and [lParam] (the
    modifier keys and the position of the click) are ignored. *)
Theorem WndProc_mouse_buttons h w hWnd wParam lParam p :
  associated w hWnd p ->
  let hooks_of uMsg :=
    filter (fun e => is_hook e = true)
      (trace_of (WndProc h hWnd uMsg wParam lParam w)) in
  hooks_of WM_LBUTTONDOWN = [EvHook p (CallOnMouseButtonDown VK_LBUTTON)]
  /\ hooks_of WM_MBUTTONDOWN = [EvHook p (CallOnMouseButtonDown VK_MBUTTON)]
  /\ hooks_of WM_RBUTTONDOWN = [EvHook p (CallOnMouseButtonDown VK_RBUTTON)]
  /\ hooks_of WM_LBUTTONUP = [EvHook p (CallOnMouseButtonUp VK_LBUTTON)]
  /\ hooks_of WM_MBUTTONUP = [EvHook p (CallOnMouseButtonUp VK_MBUTTON)]
  /\ hooks_of WM_RBUTTONUP = [EvHook p (CallOnMouseButtonUp VK_RBUTTON)]
  /\ (forall uMsg wParam' lParam', uMsg ∈ button_messages ->
        WndProc h hWnd uMsg wParam lParam w
        = WndProc h hWnd uMsg wParam' lParam' w).
Proof.
  intros Ha hooks_of. subst hooks_of. cbv beta.
  assert (Hone : forall uMsg c wp lp,
            plain_call uMsg wp lp = Some c -> uMsg <> WM_NCCREATE ->
            filter (fun e => is_hook e = true)
              (trace_of (WndProc h hWnd uMsg wp lp w)) = [EvHook p c]).
  { intros uMsg c wp lp Hc Hm. rewrite (WndProc_plain h w hWnd uMsg wp lp p c) by done.
    by destruct (hook_body h p c w) as [[b| |] w1]. }
  repeat (split; [by apply Hone|]).
  intros uMsg wParam' lParam' Hin. unfold button_messages in Hin.
  repeat (apply elem_of_cons in Hin as [->|Hin];
    [match goal with |- WndProc h hWnd ?m _ _ w = _ =>
       match eval vm_compute in (plain_call m 0 0) with
       | Some ?c => by rewrite !(WndProc_plain h w hWnd m _ _ p c) by done
       end
     end|]).
  by apply elem_of_nil in Hin.
Qed.

End Input.

(** ** The pointer position *)
Section Pointer.
Context {D : Type}.
Implicit Types (w : World D) (h : Hooks D).

Lemma LOWORD_mod l : LOWORD l = l mod 65536.
Proof.
  unfold LOWORD. change 0xFFFF with (Z.ones 16).
  rewrite Z.land_ones by lia. reflexivity.
Qed.

Lemma HIWORD_mod l : HIWORD l = (l / 65536) mod 65536.
Proof.
  unfold HIWORD. change 0xFFFF with (Z.ones 16).
  rewrite Z.land_ones, Z.shiftr_div_pow2 by lia. reflexivity.
Qed.

Lemma to_short_range v : 0 <= v < 65536 -> -32768 <= to_short v < 32768.
Proof. intros Hv. unfold to_short. destruct (Z.ltb_spec v 0x8000); lia. Qed.

Lemma to_short_congruent v : to_short v mod 65536 = v mod 65536.
Proof.
  unfold to_short. destruct (Z.ltb_spec v 0x8000); [reflexivity|].
  replace (v - 0x10000) with (v + (-1) * 65536) by lia.
  apply Z_mod_plus_full.
Qed.

Lemma to_short_of_mod x : -32768 <= x < 32768 -> to_short (x mod 65536) = x.
Proof.
  intros Hx. unfold to_short. destruct (Z_lt_le_dec x 0) as [Hneg|Hpos].
  - assert (E : x mod 65536 = x + 65536).
    { rewrite <- (Z_mod_plus_full x 1 65536). apply Z.mod_small. lia. }
    rewrite E. destruct (Z.ltb_spec (x + 65536) 0x8000); lia.
  - rewrite Z.mod_small by lia. destruct (Z.ltb_spec x 0x8000); lia.
Qed.

(** X4.  A pointer-move message calls [OnMouseMove] with the two signed
    16-bit halves of the low 32 bits of [lParam]: both coordinates lie in
    [-32768, 32767], and a position packed from such a pair, whatever the
    bits above it, is handed to the hook as that pair. *)
Theorem WndProc_mouse_move h w hWnd wParam lParam p :
  associated w hWnd p ->
  let x := GET_X_LPARAM lParam in
  let y := GET_Y_LPARAM lParam in
  trace_of (WndProc h hWnd WM_MOUSEMOVE wParam lParam w)
  = [EvGetWindowLongPtr hWnd GWLP_USERDATA; EvHook p (CallOnMouseMove x y)]
  /\ -32768 <= x < 32768
  /\ -32768 <= y < 32768
  /\ x mod 65536 = lParam mod 65536
  /\ y mod 65536 = (lParam / 65536) mod 65536
  /\ (forall x0 y0 k,
        -32768 <= x0 < 32768 -> -32768 <= y0 < 32768 ->
        lParam = x0 mod 65536 + 65536 * (y0 mod 65536) + 4294967296 * k ->
        x = x0 /\ y = y0).
Proof.
  intros Ha x y. subst x y. unfold GET_X_LPARAM, GET_Y_LPARAM.
  rewrite LOWORD_mod, HIWORD_mod.
  split.
  { rewrite (WndProc_plain h w hWnd WM_MOUSEMOVE wParam lParam p
               (CallOnMouseMove (GET_X_LPARAM lParam) (GET_Y_LPARAM lParam)))
      by done.
    unfold GET_X_LPARAM, GET_Y_LPARAM. rewrite LOWORD_mod, HIWORD_mod.
    by destruct (hook_body h p _ w) as [[b| |] w1]. }
  split; [apply to_short_range, Z.mod_pos_bound; lia|].
  split; [apply to_short_range, Z.mod_pos_bound; lia|].
  split; [rewrite to_short_congruent; apply Z.mod_mod; lia|].
  split; [rewrite to_short_congruent; apply Z.mod_mod; lia|].
  intros x0 y0 k Hx Hy ->.
  pose proof (Z.mod_pos_bound x0 65536 ltac:(lia)) as Hxm.
  pose proof (Z.mod_pos_bound y0 65536 ltac:(lia)) as Hym.
  set (xm := x0 mod 65536) in *. set (ym := y0 mod 65536) in *.
  assert (E1 : (xm + 65536 * ym + 4294967296 * k) mod 65536 = xm).
  { replace (xm + 65536 * ym + 4294967296 * k)
      with (xm + (ym + 65536 * k) * 65536) by lia.
    rewrite Z_mod_plus_full. apply Z.mod_small. lia. }
  assert (E2 : ((xm + 65536 * ym + 4294967296 * k) / 65536) mod 65536 = ym).
  { replace (xm + 65536 * ym + 4294967296 * k)
      with (xm + (ym + 65536 * k) * 65536) by lia.
    rewrite Z_div_plus_full by lia. rewrite (Z.div_small xm) by lia.
    replace (0 + (ym + 65536 * k)) with (ym + k * 65536) by lia.
    rewrite Z_mod_plus_full. apply Z.mod_small. lia. }
  rewrite E1, E2. subst xm ym. split; by apply to_short_of_mod.
Qed.

End Pointer.

(** ** Painting and creation *)
Section PaintAndCreate.
Context {D : Type}.
Implicit Types (w : World D) (h : Hooks D).

(** X5.  When [OnPaint] returns and has left the list of open paint
    sessions as it found it, the hook ran with the session of [hWnd] open and
    the sessions after the message are those before it. *)
Theorem WndProc_paint_balanced h w hWnd wParam lParam p w1 :
  associated w hWnd p ->
  OnPaint h p (ps_hdc (paint_plan (stubs w))) (paint_plan (stubs w))
    (set_paint_sessions (hWnd :: paint_sessions w) w) = (HookReturns tt, w1) ->
  paint_sessions w1 = hWnd :: paint_sessions w ->
  let r := WndProc h hWnd WM_PAINT wParam lParam w in
  result_of r = Ret TRUE
  /\ paint_sessions (world_of r) = paint_sessions w
  /\ world_of r = set_paint_sessions (paint_sessions w) w1.
Proof.
  intros Ha Hhook Hkeep r. subst r.
  rewrite (WndProc_associated h w hWnd WM_PAINT wParam lParam p) by done.
  destruct Ha as (Hw & _ & Hs).
  rewrite switch_paint by (done || by eexists). rewrite Hhook.
  unfold result_of, world_of. simpl. rewrite Hkeep. simpl.
  rewrite Z.eqb_refl. done.
Qed.


(** [find_shell] on the creation notification, for creation parameters that
    name a shell. *)
Lemma find_shell_NCCREATE hWnd lParam w v cs this a :
  windows w !! hWnd = Some v ->
  create_structs w !! lParam = Some cs ->
  lpCreateParams cs = this ->
  shells w !! this = Some a ->
  find_shell hWnd WM_NCCREATE lParam w
  = (Ret this, bound_at_creation w hWnd this a,
     [EvSetWindowLongPtr hWnd GWLP_USERDATA this]).
Proof.
  intros Hv Hcs Hp Ha.
  unfold find_shell. change (WM_NCCREATE =? WM_NCCREATE) with true. cbv iota.
  unfold bind at 1. unfold get at 1. rewrite Hcs, Hp.
  unfold bind at 1. unfold SetWindowLongPtr, bind at 1, log at 1.
  unfold bind at 1. unfold get at 1. rewrite Hv.
  change (GWLP_USERDATA =? GWLP_USERDATA) with true. cbv iota.
  unfold bind at 1. unfold modify at 1, ret at 1.
  unfold bind at 1. unfold write_m_hWnd, bind at 1, get at 1.
  cbn [shells set_windows]. rewrite Ha. unfold modify at 1, ret at 1.
  reflexivity.
Qed.

(** The same, for creation parameters that name no shell. *)
Lemma find_shell_NCCREATE_no_shell hWnd lParam w v cs q :
  windows w !! hWnd = Some v ->
  create_structs w !! lParam = Some cs ->
  lpCreateParams cs = q ->
  shells w !! q = None ->
  find_shell hWnd WM_NCCREATE lParam w
  = (Halt (InvalidPointer q), set_windows (<[hWnd := q]> (windows w)) w,
     [EvSetWindowLongPtr hWnd GWLP_USERDATA q]).
Proof.
  intros Hv Hcs Hp Ha.
  unfold find_shell. change (WM_NCCREATE =? WM_NCCREATE) with true. cbv iota.
  unfold bind at 1. unfold get at 1. rewrite Hcs, Hp.
  unfold bind at 1. unfold SetWindowLongPtr, bind at 1, log at 1.
  unfold bind at 1. unfold get at 1. rewrite Hv.
  change (GWLP_USERDATA =? GWLP_USERDATA) with true. cbv iota.
  unfold bind at 1. unfold modify at 1, ret at 1.
  unfold bind at 1. unfold write_m_hWnd, bind at 1, get at 1.
  cbn [shells set_windows]. rewrite Ha. reflexivity.
Qed.

(** [WndProc] on the creation notification. *)
Lemma WndProc_NCCREATE_eq h w hWnd wParam lParam v cs this a :
  windows w !! hWnd = Some v ->
  create_structs w !! lParam = Some cs ->
  lpCreateParams cs = this ->
  this <> NULL ->
  shells w !! this = Some a ->
  WndProc h hWnd WM_NCCREATE wParam lParam w
  = match HandleOtherMessages h this WM_NCCREATE
            (bound_at_creation w hWnd this a) with
    | (HookReturns b, w1) =>
        (Ret TRUE, w1,
         [EvSetWindowLongPtr hWnd GWLP_USERDATA this;
          EvHook this (CallHandleOtherMessages WM_NCCREATE)]
         ++ (if b =? 0 then [EvDefWindowProc hWnd WM_NCCREATE wParam lParam]
             else []))
    | (HookThrows e, w1) =>
        (Throw (HookException e), w1,
         [EvSetWindowLongPtr hWnd GWLP_USERDATA this;
          EvHook this (CallHandleOtherMessages WM_NCCREATE)])
    | (HookNeverReturns, w1) =>
        (Halt HookHalts, w1,
         [EvSetWindowLongPtr hWnd GWLP_USERDATA this;
          EvHook this (CallHandleOtherMessages WM_NCCREATE)])
    end.
Proof.
  intros Hv Hcs Hp Hnz Ha.
  unfold WndProc. unfold bind at 1.
  rewrite (find_shell_NCCREATE hWnd lParam w v cs this a) by done.
  apply Z.eqb_neq in Hnz. rewrite Hnz. unfold bind at 1.
  rewrite switch_default; cycle 1.
  { apply route_default_iff. reflexivity. }
  { unfold bound_at_creation. simpl. rewrite lookup_insert_eq. by eexists. }
  destruct (HandleOtherMessages h this WM_NCCREATE _) as [[b| |] w1];
    [|reflexivity..].
  destruct (b =? 0); reflexivity.
Qed.

(** X6.  On the creation notification the slot and [m_hWnd] are written
    first, so the hook already runs with window and shell bound to each
    other; the notification itself is then offered to [HandleOtherMessages],
    and an override that reports it handled keeps it from [DefWindowProc]. *)
Theorem WndProc_NCCREATE_then_hook h w hWnd wParam lParam v cs this a :
  windows w !! hWnd = Some v ->
  create_structs w !! lParam = Some cs ->
  lpCreateParams cs = this ->
  this <> NULL ->
  shells w !! this = Some a ->
  let wb := bound_at_creation w hWnd this a in
  let hook := HandleOtherMessages h this WM_NCCREATE wb in
  let r := WndProc h hWnd WM_NCCREATE wParam lParam w in
  let called := [EvSetWindowLongPtr hWnd GWLP_USERDATA this;
                 EvHook this (CallHandleOtherMessages WM_NCCREATE)] in
  bound (stubs w) hWnd this wb
  /\ match hook.1 with
     | HookReturns b =>
         world_of r = hook.2 /\
         (b <> FALSE -> trace_of r = called /\ result_of r = Ret TRUE) /\
         (b = FALSE ->
            trace_of r = called ++ [EvDefWindowProc hWnd WM_NCCREATE wParam lParam]
            /\ result_of r
               = result_of (DefWindowProc hWnd WM_NCCREATE wParam lParam hook.2))
     | HookThrows e =>
         result_of r = Throw (HookException e) /\ trace_of r = called
     | HookNeverReturns =>
         result_of r = Halt HookHalts /\ trace_of r = called
     end.
Proof.
  intros Hv Hcs Hp Hnz Ha wb hook r called. subst hook r called.
  split.
  { subst wb. unfold bound_at_creation. repeat split; simpl.
    - apply lookup_insert_eq.
    - by rewrite lookup_insert_eq. }
  rewrite (WndProc_NCCREATE_eq h w hWnd wParam lParam v cs this a) by done.
  fold wb.
  destruct (HandleOtherMessages h this WM_NCCREATE wb) as [[b| |] w1]; simpl;
    [|done..].
  destruct (Z.eqb_spec b 0) as [->|Hb]; simpl; repeat split; done.
Qed.

(** X7.  On the creation notification the pointer taken from the creation
    parameters is stored in the slot and dereferenced before it is tested:
    when it names no shell, as [NULL] does, the run ends at that write, with
    no hook called and [DefWindowProc] never reached. *)
Theorem WndProc_NCCREATE_without_shell h w hWnd wParam lParam v cs q :
  windows w !! hWnd = Some v ->
  create_structs w !! lParam = Some cs ->
  lpCreateParams cs = q ->
  shells w !! q = None ->
  let r := WndProc h hWnd WM_NCCREATE wParam lParam w in
  result_of r = Halt (InvalidPointer q)
  /\ trace_of r = [EvSetWindowLongPtr hWnd GWLP_USERDATA q]
  /\ user_data (world_of r) hWnd = q
  /\ count is_hook (trace_of r) = 0%nat
  /\ count is_DefWindowProc (trace_of r) = 0%nat.
Proof.
  intros Hv Hcs Hp Hq r.
  assert (Hr : r = (Halt (InvalidPointer q),
                    set_windows (<[hWnd := q]> (windows w)) w,
                    [EvSetWindowLongPtr hWnd GWLP_USERDATA q])).
  { subst r. unfold WndProc. unfold bind at 1.
    by rewrite (find_shell_NCCREATE_no_shell hWnd lParam w v cs q). }
  rewrite Hr. repeat split.
  unfold user_data, world_of. simpl. by rewrite lookup_insert_eq.
Qed.

End PaintAndCreate.

(** ** What each function calls *)
Section Confinement.
Context {D : Type}.
Implicit Types (w : World D) (h : Hooks D).

Lemma trace_of_bind {A B} (m : M D A) (k : A -> M D B) w :
  trace_of (bind m k w)
  = match m w with
    | (Ret a, w1, t1) => t1 ++ trace_of (k a w1)
    | (_, _, t1) => t1
    end.
Proof.
  unfold bind, trace_of. destruct (m w) as [[[a|e|y] w1] t1]; [|done..].
  by destruct (k a w1) as [[o w2] t2].
Qed.

Section Emitted.
Variable P : Event -> bool.

Lemma emits_bind {A B} (m : M D A) (k : A -> M D B) :
  emits P m -> (forall a, emits P (k a)) -> emits P (bind m k).
Proof.
  intros Hm Hk w. rewrite trace_of_bind.
  specialize (Hm w). unfold trace_of in Hm.
  destruct (m w) as [[[a|e|y] w1] t1]; simpl in *; [|done..].
  apply Forall_app. split; [done | apply Hk].
Qed.

Lemma emits_ret {A} (a : A) : emits (D := D) P (ret a).
Proof. intros w. constructor. Qed.

Lemma emits_get : emits (D := D) P get.
Proof. intros w. constructor. Qed.

Lemma emits_modify f : emits (D := D) P (modify f).
Proof. intros w. constructor. Qed.

Lemma emits_stop {A} y : emits (D := D) P (stop (A := A) y).
Proof. intros w. constructor. Qed.

Lemma emits_log e : P e = true -> emits (D := D) P (log e).
Proof. intros He w. by repeat constructor. Qed.

Lemma emits_invoke h p c : P (EvHook p c) = true -> emits P (invoke h p c).
Proof.
  intros He. unfold invoke. apply emits_bind; [apply emits_get|]. intros w0.
  destruct (shells w0 !! p); [|apply emits_stop].
  apply emits_bind; [by apply emits_log|]. intros _ w.
  unfold trace_of. destruct (hook_body h p c w). constructor.
Qed.

End Emitted.

Lemma emits_weaken {A} (P Q : Event -> bool) (m : M D A) :
  (forall e, P e = true -> Q e = true) -> emits P m -> emits Q m.
Proof. intros HPQ Hm w. eapply Forall_impl; [apply Hm | done]. Qed.

Lemma count_zero_of_Forall (P Q : Event -> bool) (t : list Event) :
  (forall e, P e = true -> Q e = false) ->
  Forall (fun e => P e = true) t -> count Q t = 0%nat.
Proof.
  intros HPQ Ht. unfold count. induction Ht as [|e t He _ IH]; [done|].
  rewrite filter_cons. apply HPQ in He.
  destruct (decide (Q e = true)) as [Hq|_]; [congruence | exact IH].
Qed.

Ltac emits_tac :=
  repeat first
    [ apply emits_ret | apply emits_get | apply emits_modify | apply emits_stop
    | apply emits_log; reflexivity
    | apply emits_invoke; reflexivity
    | apply emits_bind; [|intros ?]
    | match goal with
      | |- emits _ (match ?x with _ => _ end) => destruct x
      | |- emits _ (if ?x then _ else _) => destruct x
      end ].

Lemma emits_WndProc h hWnd uMsg wParam lParam :
  emits is_WndProc_call (WndProc h hWnd uMsg wParam lParam).
Proof.
  unfold WndProc. apply emits_bind.
  - unfold find_shell, SetWindowLongPtr, GetWindowLongPtr, write_m_hWnd. emits_tac.
  - intros p. apply emits_bind.
    + destruct (p =? NULL); [apply emits_ret|].
      unfold switch_uMsg, BeginPaint, EndPaint, PostQuitMessage. emits_tac.
    + intros [r|]; unfold DefWindowProc; emits_tac.
Qed.

Lemma emits_WndProc_reading h hWnd uMsg wParam lParam :
  uMsg <> WM_NCCREATE ->
  emits is_reading_call (WndProc h hWnd uMsg wParam lParam).
Proof.
  intros Hm. apply Z.eqb_neq in Hm. unfold WndProc. apply emits_bind.
  - unfold find_shell. rewrite Hm. unfold GetWindowLongPtr. emits_tac.
  - intros p. apply emits_bind.
    + destruct (p =? NULL); [apply emits_ret|].
      unfold switch_uMsg, BeginPaint, EndPaint, PostQuitMessage. emits_tac.
    + intros [r|]; unfold DefWindowProc; emits_tac.
Qed.

Lemma emits_call_window_proc h hWnd uMsg wParam lParam :
  emits is_callback (call_window_proc (WndProc h) hWnd uMsg wParam lParam).
Proof.
  unfold call_window_proc. apply emits_bind; [by apply emits_log|]. intros _.
  eapply emits_weaken; [|apply emits_WndProc].
  intros e He. unfold is_callback. rewrite He. apply orb_true_r.
Qed.

Lemma emits_send_all h hWnd l :
  emits is_callback (send_all (WndProc h) hWnd l).
Proof.
  induction l as [|[[uMsg wp] lp] l IH]; simpl; [apply emits_ret|].
  apply emits_bind; [apply emits_call_window_proc | intros _; exact IH].
Qed.

Lemma emits_DispatchMessageW h msg :
  emits is_poll_event (DispatchMessageW (WndProc h) msg).
Proof.
  unfold DispatchMessageW. apply emits_bind; [by apply emits_log|]. intros _.
  apply emits_bind; [apply emits_get|]. intros w0.
  destruct (windows w0 !! hwnd msg); [|apply emits_ret].
  eapply emits_weaken; [|apply emits_call_window_proc].
  intros e He. unfold is_callback in He. by destruct e.
Qed.

(** X8.  Whatever the message and the hooks, the window procedure itself
    calls nothing but the slot accessors, the paint pair, [PostQuitMessage],
    [DefWindowProc] and the hooks: it never retrieves, translates or dispatches
    a message, never creates or shows a window, and never reads the last
    error. *)
Theorem WndProc_calls_confined h hWnd uMsg wParam lParam w :
  let t := trace_of (WndProc h hWnd uMsg wParam lParam w) in
  Forall (fun e => is_WndProc_call e = true) t
  /\ count is_translate t = 0%nat
  /\ count is_dispatch t = 0%nat
  /\ count is_GetMessage t = 0%nat
  /\ count is_create t = 0%nat
  /\ count is_ShowWindow t = 0%nat
  /\ count is_GetLastError t = 0%nat.
Proof.
  intros t. pose proof (emits_WndProc h hWnd uMsg wParam lParam w) as Ht.
  fold t in Ht. split; [exact Ht|].
  repeat split; (eapply count_zero_of_Forall; [|exact Ht]); by intros [].
Qed.

Lemma DispatchMessageW_shape h msg w :
  exists t,
    trace_of (DispatchMessageW (WndProc h) msg w) = EvDispatchMessageW msg :: t
    /\ Forall (fun e => is_callback e = true) t.
Proof.
  unfold DispatchMessageW. rewrite trace_of_bind. simpl.
  eexists. split; [reflexivity|].
  match goal with |- Forall _ (trace_of (?k w)) => assert (Hk : emits is_callback k) end.
  { apply emits_bind; [apply emits_get|]. intros w0.
    destruct (windows w0 !! hwnd msg); [|apply emits_ret].
    apply emits_call_window_proc. }
  apply Hk.
Qed.

(** X9.  [PollMessage] has no error path: it never ends in an
    [ApplicationException], never reads the last error, and never makes the
    blocking retrieval call.  Its trace is one [PeekMessageW] call that
    removes what it retrieves, then one [TranslateMessage] and one
    [DispatchMessageW] call on the record that call answered with, and after
    these only what window procedures do. *)
Theorem PollMessage_has_no_error_path h w :
  let r := PollMessage h w in
  (forall s, result_of r <> Throw (ApplicationException s))
  /\ (exists v m t,
        result_of (PeekMessageW MSG_zero NULL 0 0 PM_REMOVE w) = Ret (v, m)
        /\ trace_of r
           = EvPeekMessageW NULL 0 0 PM_REMOVE :: EvTranslateMessage m
               :: EvDispatchMessageW m :: t
        /\ Forall (fun e => is_callback e = true) t)
  /\ count is_PeekMessage (trace_of r) = 1%nat
  /\ count is_translate (trace_of r) = 1%nat
  /\ count is_dispatch (trace_of r) = 1%nat
  /\ count is_GetLastError (trace_of r) = 0%nat
  /\ count is_GetMessage (trace_of r) = 0%nat.
Proof.
  intros r. subst r. rewrite PollMessage_eq.
  assert (Hpeek : exists v msg w1,
            PeekMessageW MSG_zero NULL 0 0 PM_REMOVE w
            = (Ret (v, msg), w1, [EvPeekMessageW NULL 0 0 PM_REMOVE])).
  { unfold PeekMessageW, bind, log, get, modify, ret. simpl.
    destruct (queue w); [destruct (quit_flag w)|]; simpl; by do 3 eexists. }
  destruct Hpeek as (v & msg & w1 & ->). cbv zeta.
  destruct (DispatchMessageW_shape h msg w1) as (t & Ht & Hf).
  split; [intros s; apply discard_only_hooks|].
  split; [exists v, msg, t; unfold trace_of in *; simpl; by rewrite Ht|].
  assert (Hz : forall f, (forall e, is_callback e = true -> f e = false) ->
            count f t = 0%nat).
  { intros f Hf'. by eapply count_zero_of_Forall. }
  unfold trace_of in *. simpl in *. rewrite Ht.
  change (EvPeekMessageW NULL 0 0 PM_REMOVE :: EvTranslateMessage msg
            :: EvDispatchMessageW msg :: t)
    with ([EvPeekMessageW NULL 0 0 PM_REMOVE; EvTranslateMessage msg;
           EvDispatchMessageW msg] ++ t).
  unfold count in *. rewrite !filter_app, !length_app.
  rewrite (Hz is_PeekMessage), (Hz is_translate), (Hz is_dispatch),
    (Hz is_GetLastError), (Hz is_GetMessage) by (by intros []).
  done.
Qed.

End Confinement.

(** ** Pumping pending messages *)
Section Pending.
Context {D : Type}.
Implicit Types (w : World D) (h : Hooks D).

(** X10.  With messages queued, [PollMessage] takes the oldest one: that
    record is translated, then dispatched in a state whose queue holds the
    later messages in their order and whose quit request is untouched; the
    operation ends as that dispatch does. *)
Theorem PollMessage_takes_oldest h w m q :
  queue w = m :: q ->
  let d := DispatchMessageW (WndProc h) m (set_queue q w) in
  let r := PollMessage h w in
  trace_of r
  = EvPeekMessageW NULL 0 0 PM_REMOVE :: EvTranslateMessage m :: trace_of d
  /\ result_of r = discard (result_of d)
  /\ world_of r = world_of d.
Proof.
  intros Hq d r. subst d r. rewrite PollMessage_eq.
  unfold PeekMessageW, bind, log, get, modify, ret. simpl. rewrite Hq. simpl.
  done.
Qed.

(** X11.  When retrieval does not fail and something is pending, the two
    pump operations do the same: they end alike, leave the same state, and
    their traces differ in the retrieval call alone. *)
Theorem pumps_agree_when_pending h w :
  retrieval_error (stubs w) = None ->
  ~ nothing_pending w ->
  let wait := WaitMessage h w in
  let poll := PollMessage h w in
  result_of wait = result_of poll
  /\ world_of wait = world_of poll
  /\ exists t,
       trace_of wait = EvGetMessageW NULL 0 0 :: t
       /\ trace_of poll = EvPeekMessageW NULL 0 0 PM_REMOVE :: t.
Proof.
  intros He Hp wait poll. subst wait poll.
  rewrite WaitMessage_eq, PollMessage_eq.
  unfold GetMessageW, PeekMessageW, bind, log, get, modify, ret, stop. simpl.
  rewrite He. destruct (queue w) as [|m q] eqn:Eq; simpl.
  - destruct (quit_flag w) as [n|] eqn:Ef; simpl.
    + repeat split. by eexists.
    + exfalso. apply Hp. by split.
  - destruct (message m =? WM_QUIT); simpl; repeat split; by eexists.
Qed.

(** X12.  Closing hands the quit signal to the next wait: after a close
    message whose [OnClose] returns, with nothing else queued, [WaitMessage]
    retrieves the quit record with exit code [0], to which [GetMessageW]
    answers [0], and returns; the request is consumed by that, so a further
    [WaitMessage] never comes back. *)
Theorem close_then_WaitMessage h w hWnd wParam lParam p w1 :
  associated w hWnd p ->
  OnClose h p w = (HookReturns tt, w1) ->
  queue w1 = [] ->
  retrieval_error (stubs w1) = None ->
  windows w1 !! NULL = None ->
  (WndProc h hWnd WM_CLOSE wParam lParam;;; WaitMessage h) w
  = (Ret tt, set_quit_flag None w1,
     [EvGetWindowLongPtr hWnd GWLP_USERDATA; EvHook p CallOnClose;
      EvPostQuitMessage 0; EvGetMessageW NULL 0 0;
      EvTranslateMessage (quit_message 0); EvDispatchMessageW (quit_message 0)])
  /\ result_of (GetMessageW MSG_zero NULL 0 0 (set_quit_flag (Some 0) w1))
     = Ret (0, quit_message 0)
  /\ result_of ((WndProc h hWnd WM_CLOSE wParam lParam;;; WaitMessage h;;;
                 WaitMessage h) w)
     = Halt BlockedForever.
Proof.
  intros Ha Hhook Hq He Hn.
  assert (Hclose : WndProc h hWnd WM_CLOSE wParam lParam w
            = (Ret TRUE, set_quit_flag (Some 0) w1,
               [EvGetWindowLongPtr hWnd GWLP_USERDATA; EvHook p CallOnClose;
                EvPostQuitMessage 0])).
  { rewrite (WndProc_associated h w hWnd WM_CLOSE wParam lParam p) by done.
    rewrite switch_close by apply Ha. by rewrite Hhook. }
  assert (Hget : GetMessageW MSG_zero NULL 0 0 (set_quit_flag (Some 0) w1)
            = (Ret (0, quit_message 0), set_quit_flag None w1,
               [EvGetMessageW NULL 0 0])).
  { unfold GetMessageW, bind, log, get, modify, ret. simpl. by rewrite He, Hq. }
  assert (Hwait : WaitMessage h (set_quit_flag (Some 0) w1)
            = (Ret tt, set_quit_flag None w1,
               [EvGetMessageW NULL 0 0; EvTranslateMessage (quit_message 0);
                EvDispatchMessageW (quit_message 0)])).
  { rewrite WaitMessage_eq, Hget. simpl.
    by rewrite DispatchMessageW_no_window. }
  assert (Hblock : result_of (WaitMessage h (set_quit_flag None w1))
            = Halt BlockedForever).
  { rewrite WaitMessage_eq.
    unfold GetMessageW, bind, log, get, modify, ret, stop. simpl.
    by rewrite He, Hq. }
  split; [|split].
  - unfold bind. by rewrite Hclose, Hwait.
  - by rewrite Hget.
  - unfold bind at 1. rewrite Hclose. unfold bind at 1. rewrite Hwait.
    unfold result_of in *.
    destruct (WaitMessage h (set_quit_flag None w1)) as [[o w2] t2].
    simpl in *. by subst o.
Qed.

End Pending.

(** ** Construction, further *)
Section Constructed.
Context {D : Type}.
Implicit Types (w : World D) (h : Hooks D).

Lemma count_app (f : Event -> bool) (a b : list Event) :
  count f (a ++ b) = (count f a + count f b)%nat.
Proof. unfold count. by rewrite filter_app, length_app. Qed.

Lemma CreateWindowExW_trace h ex cls name st x y nW nH par menu hInst this w :
  exists tc,
    trace_of (CreateWindowExW (WndProc h) ex cls name st x y nW nH par menu
                hInst this w)
    = EvCreateWindowExW ex cls name st x y nW nH par menu hInst this :: tc
    /\ Forall (fun e => is_callback e = true) tc.
Proof.
  unfold CreateWindowExW. rewrite trace_of_bind. simpl.
  eexists. split; [reflexivity|].
  match goal with |- Forall _ (trace_of (?k w)) => assert (Hk : emits is_callback k) end.
  { apply emits_bind; [apply emits_get|]. intros w0.
    destruct (create_plan (stubs w0)).
    - apply emits_bind; [apply emits_modify | intros _; apply emits_ret].
    - apply emits_bind; [apply emits_modify|]. intros _.
      apply emits_bind; [apply emits_modify|]. intros _.
      apply emits_bind; [apply emits_call_window_proc|]. intros r.
      destruct (r =? 0).
      + apply emits_bind; [apply emits_modify|]. intros _.
        apply emits_bind; [apply emits_modify | intros _; apply emits_ret].
      + apply emits_bind; [apply emits_send_all|]. intros _.
        apply emits_bind; [apply emits_modify | intros _; apply emits_ret]. }
  apply Hk.
Qed.

Lemma CreateWindowExW_handle h ex cls name st x y nW nH par menu hInst this w hWnd w' t :
  CreateWindowExW (WndProc h) ex cls name st x y nW nH par menu hInst this w
  = (Ret hWnd, w', t) ->
  hWnd <> NULL ->
  exists rest, create_plan (stubs w) = CreateSends hWnd rest.
Proof.
  intros H Hh. unfold CreateWindowExW in H.
  apply bind_Ret in H as (? & w0 & ? & t0 & [= <- <- <-] & H & ->).
  apply bind_Ret in H as (? & ? & ? & ? & [= <- <- <-] & H & ->).
  destruct (create_plan (stubs w)) as [c|hp rest].
  { apply bind_Ret in H as (? & ? & ? & ? & _ & [= <- _ _] & _). done. }
  apply bind_Ret in H as (? & ? & ? & ? & _ & H & ->).
  apply bind_Ret in H as (? & ? & ? & ? & _ & H & ->).
  apply bind_Ret in H as (r & w1 & t1 & t2 & _ & H & ->).
  destruct (r =? 0).
  { apply bind_Ret in H as (? & ? & ? & ? & _ & H & _).
    apply bind_Ret in H as (? & ? & ? & ? & _ & [= <- _ _] & _). done. }
  apply bind_Ret in H as (? & w2 & t3 & ? & _ & H & ->).
  apply bind_Ret in H as (? & ? & ? & ? & _ & [= <- _ _] & ->).
  by exists rest.
Qed.

Lemma ShowWindow_trace h hWnd n w :
  exists ts,
    trace_of (ShowWindow (WndProc h) hWnd n w) = EvShowWindow hWnd n :: ts
    /\ Forall (fun e => is_callback e = true) ts.
Proof.
  unfold ShowWindow. rewrite trace_of_bind. simpl.
  eexists. split; [reflexivity|].
  match goal with |- Forall _ (trace_of (?k w)) => assert (Hk : emits is_callback k) end.
  { apply emits_bind; [apply emits_get|]. intros w0.
    destruct (windows w0 !! hWnd); [|apply emits_ret].
    apply emits_bind; [apply emits_send_all | intros _; apply emits_ret]. }
  apply Hk.
Qed.

(** The shell under construction stays where it is while the platform is
    inside [CreateWindowExW]. *)
Lemma preserves_shell_invoke h this p c :
  preserves (fun w => is_Some (shells w !! this))
    (invoke (under_construction h) p c).
Proof.
  unfold invoke. apply preserves_get_bind. intros w Hw.
  destruct (shells w !! p); [|done].
  rewrite world_of_bind. simpl. unfold world_of. by destruct c.
Qed.

Lemma preserves_shell_write this p v :
  preserves (D := D) (fun w => is_Some (shells w !! this)) (write_m_hWnd p v).
Proof.
  unfold write_m_hWnd. apply preserves_get_bind. intros w Hw.
  destruct (shells w !! p) eqn:E; [|done].
  unfold world_of. simpl. destruct (decide (p = this)) as [->|Hne].
  - rewrite lookup_insert_eq. by eexists.
  - by rewrite lookup_insert_ne.
Qed.

Ltac preserves_shell :=
  repeat first
    [ apply preserves_ret | apply preserves_log | apply preserves_stop
    | apply preserves_shell_invoke | apply preserves_shell_write
    | apply preserves_modify; intros ? ?; assumption
    | apply preserves_bind; [|intros ?]
    | match goal with
      | |- preserves _ (match ?x with _ => _ end) => destruct x
      | |- preserves _ (if ?x then _ else _) => destruct x
      end ].

Lemma preserves_shell_WndProc h this hWnd uMsg wParam lParam :
  preserves (fun w => is_Some (shells w !! this))
    (WndProc (under_construction h) hWnd uMsg wParam lParam).
Proof.
  unfold WndProc, find_shell, SetWindowLongPtr, GetWindowLongPtr, switch_uMsg,
    BeginPaint, EndPaint, PostQuitMessage, DefWindowProc.
  preserves_shell.
Qed.

Lemma preserves_shell_send_all h this hWnd l :
  preserves (fun w => is_Some (shells w !! this))
    (send_all (WndProc (under_construction h)) hWnd l).
Proof.
  induction l as [|[[uMsg wp] lp] l IH]; simpl; [apply preserves_ret|].
  apply preserves_bind; [|intros _; exact IH].
  unfold call_window_proc. apply preserves_bind; [apply preserves_log|].
  intros _. apply preserves_shell_WndProc.
Qed.

Lemma preserves_shell_CreateWindowExW h this ex cls name st x y nW nH par menu hInst lpParam :
  preserves (fun w => is_Some (shells w !! this))
    (CreateWindowExW (WndProc (under_construction h)) ex cls name st x y nW nH
       par menu hInst lpParam).
Proof.
  unfold CreateWindowExW, call_window_proc.
  pose proof (preserves_shell_WndProc h this) as HW.
  pose proof (preserves_shell_send_all h this) as HS.
  repeat first
    [ apply preserves_ret | apply preserves_log | apply HW | apply HS
    | apply preserves_modify; intros ? ?; assumption
    | apply preserves_bind; [|intros ?]
    | match goal with
      | |- preserves _ (match ?x with _ => _ end) => destruct x
      | |- preserves _ (if ?x then _ else _) => destruct x
      end ].
Qed.

(** X13.  When registration succeeds and [CreateWindowExW] answers [NULL],
    for whatever reason, construction ends in the [ApplicationException] for
    creation, carrying the last-error code current when [CreateWindowExW]
    came back; the trace is that of the successful registration, of the
    creation call, and one [GetLastError]; the window is never shown and the
    shell is left with [NULL] in [m_hWnd].  When creation fails with an error
    code before any window exists, that code is the one carried and no window
    procedure has run. *)
Theorem ctor_creation_fails h this name nW nH x y st ex w atom :
  register_plan (stubs w) = RegisterGives atom ->
  let c := CreateWindowExW (WndProc (under_construction h)) ex name name st
             x y nW nH NULL NULL (module_handle (stubs w)) this
             (at_creation this w) in
  result_of c = Ret NULL ->
  let r := Application_ctor h this name nW nH x y st ex w in
  result_of r
  = Throw (ApplicationException
             ("Failed to create a window (CreateWindowEx) | Error code : "
                +:+ pretty (last_error (world_of c))))
  /\ trace_of r
     = [EvGetModuleHandleW NULL;
        EvRegisterClassW {| wc_hInstance := module_handle (stubs w);
                            wc_lpszClassName := name |}]
       ++ trace_of c ++ [EvGetLastError]
  /\ count is_ShowWindow (trace_of r) = 0%nat
  /\ m_hWnd <$> shells (world_of r) !! this = Some NULL
  /\ (forall code, create_plan (stubs w) = CreateFails code ->
        last_error (world_of c) = code
        /\ trace_of c
           = [EvCreateWindowExW ex name name st x y nW nH NULL NULL
                (module_handle (stubs w)) this]
        /\ count is_WndProc (trace_of r) = 0%nat).
Proof.
  intros Hreg c Hc r.
  assert (Hshell : is_Some (shells (world_of c) !! this)).
  { apply preserves_shell_CreateWindowExW. unfold at_creation. simpl.
    rewrite lookup_insert_eq. by eexists. }
  destruct (CreateWindowExW_trace (under_construction h) ex name name st x y nW nH
              NULL NULL (module_handle (stubs w)) this (at_creation this w))
    as (tc & Htc & Hfc). fold c in Htc.
  assert (Hr : r = (Throw (ApplicationException
                      ("Failed to create a window (CreateWindowEx) | Error code : "
                         +:+ pretty (last_error (world_of c)))),
                    set_shells
                      (<[this := {| m_hInstance :=
                                      from_option m_hInstance 0
                                        (shells (world_of c) !! this);
                                    m_hWnd := NULL |}]> (shells (world_of c)))
                      (world_of c),
                    [EvGetModuleHandleW NULL;
                     EvRegisterClassW {| wc_hInstance := module_handle (stubs w);
                                         wc_lpszClassName := name |}]
                    ++ trace_of c ++ [EvGetLastError])).
  { subst r.
    destruct (ctor_until_registration h this name nW nH x y st ex w)
      as (w1 & -> & _ & _ & _ & _ & ->).
    rewrite Hreg. unfold bind at 1. fold c.
    destruct Hshell as [a Ha]. unfold result_of, world_of, trace_of in *.
    destruct c as [[o wa] ta]. simpl in *. subst o.
    unfold bind at 1. unfold write_m_hWnd, bind at 1, get at 1.
    rewrite Ha. unfold modify at 1.
    change (NULL =? NULL) with true. cbv iota.
    unfold bind at 1. rewrite throw_ApplicationException_eq. simpl.
    reflexivity. }
  rewrite Hr. clear Hr.
  split; [reflexivity|]. split; [reflexivity|]. split; [|split].
  - change (count is_ShowWindow
              ([EvGetModuleHandleW NULL;
                EvRegisterClassW {| wc_hInstance := module_handle (stubs w);
                                    wc_lpszClassName := name |}]
               ++ trace_of c ++ [EvGetLastError]) = 0%nat).
    rewrite Htc. rewrite !count_app.
    replace (count is_ShowWindow
               (EvCreateWindowExW ex name name st x y nW nH NULL NULL
                  (module_handle (stubs w)) this :: tc))
      with (count is_ShowWindow tc) by reflexivity.
    rewrite (count_zero_of_Forall is_callback is_ShowWindow tc); [done| |done].
    by intros [].
  - unfold world_of at 1. simpl. by rewrite lookup_insert_eq.
  - intros code Hplan.
    assert (Ec : c = (Ret 0, set_last_error code (at_creation this w),
                      [EvCreateWindowExW ex name name st x y nW nH NULL NULL
                         (module_handle (stubs w)) this])).
    { subst c. unfold CreateWindowExW, bind, log, get, modify, ret. simpl.
      by rewrite Hplan. }
    rewrite Ec. done.
Qed.

(** X14.  Whatever the derived class overrides, a construction that returns
    has asked the platform, in this order, for the module handle, for one
    class named after the window title, for one window of that class with
    that title, the arguments in the platform's order and [this] as creation
    parameter, and for showing the created window; between and after these
    only window procedure runs are recorded, and the last error is never
    read. *)
Theorem ctor_call_sequence h this name nW nH x y st ex w w' t :
  Application_ctor h this name nW nH x y st ex w = (Ret tt, w', t) ->
  exists hWnd rest tc ts,
    create_plan (stubs w) = CreateSends hWnd rest
    /\ hWnd <> NULL
    /\ t = [EvGetModuleHandleW NULL;
            EvRegisterClassW {| wc_hInstance := module_handle (stubs w);
                                wc_lpszClassName := name |};
            EvCreateWindowExW ex name name st x y nW nH NULL NULL
              (module_handle (stubs w)) this]
           ++ tc ++ EvShowWindow hWnd SW_SHOW :: ts
    /\ Forall (fun e => is_callback e = true) tc
    /\ Forall (fun e => is_callback e = true) ts
    /\ count is_RegisterClass t = 1%nat
    /\ count is_create t = 1%nat
    /\ count is_ShowWindow t = 1%nat
    /\ count is_GetLastError t = 0%nat.
Proof.
  intros H.
  destruct (ctor_until_registration h this name nW nH x y st ex w)
    as (w1 & _ & Hs1 & _ & _ & _ & Heq).
  rewrite Heq in H. clear Heq.
  destruct (register_plan (stubs w)); [done|].
  match type of H with context [bind ?m ?k w1] =>
    destruct (bind m k w1) as [[o w2] t2] eqn:E end.
  injection H as Ho Hw Ht. subst o w2 t.
  apply bind_Ret in E as (hWnd & wa & ta & ? & Hcreate & E & ->).
  apply bind_Ret in E as (? & wb & tb & ? & Hwrite & E & ->).
  apply bind_Ret in E as (? & wc & tc0 & ? & Hcheck & E & ->).
  apply bind_Ret in E as (? & wd & td & ? & Hshow & [= <- <-] & ->).
  destruct (Z.eqb_spec hWnd NULL) as [->|Hh].
  { by rewrite throw_ApplicationException_eq in Hcheck. }
  injection Hcheck as <- <-.
  destruct (CreateWindowExW_handle _ _ _ _ _ _ _ _ _ _ _ _ _ _ _ _ _ Hcreate Hh)
    as [rest Hplan].
  rewrite Hs1 in Hplan.
  destruct (CreateWindowExW_trace (under_construction h) ex name name st x y
              nW nH NULL NULL (module_handle (stubs w)) this w1)
    as (tc & Htc & Hfc).
  rewrite Hcreate in Htc. unfold trace_of in Htc. simpl in Htc. subst ta.
  destruct (ShowWindow_trace (under_construction h) hWnd SW_SHOW wb)
    as (ts & Hts & Hfs).
  rewrite Hshow in Hts. unfold trace_of in Hts. simpl in Hts. subst td.
  assert (Htb : tb = []).
  { unfold write_m_hWnd in Hwrite.
    apply bind_Ret in Hwrite as (? & ? & ? & ? & [= <- <- <-] & Hwrite & ->).
    destruct (shells wa !! this); [|done]. by injection Hwrite as <- <-. }
  subst tb.
  subst tc0.
  match goal with |- exists _ _ _ _, _ /\ _ /\ ?T = _ /\ _ =>
    assert (HT : T = [EvGetModuleHandleW NULL;
                      EvRegisterClassW {| wc_hInstance := module_handle (stubs w);
                                          wc_lpszClassName := name |};
                      EvCreateWindowExW ex name name st x y nW nH NULL NULL
                        (module_handle (stubs w)) this]
                     ++ tc ++ [EvShowWindow hWnd SW_SHOW] ++ ts)
      by (simpl; by rewrite app_nil_r);
    rewrite HT; clear HT
  end.
  exists hWnd, rest, tc, ts.
  split; [done|]. split; [done|]. split; [reflexivity|].
  split; [done|]. split; [done|].
  assert (Hz : forall f, (forall e, is_callback e = true -> f e = false) ->
            count f tc = 0%nat /\ count f ts = 0%nat).
  { intros f Hf. split; by eapply count_zero_of_Forall. }
  rewrite !count_app.
  repeat split.
  - destruct (Hz is_RegisterClass) as [-> ->]; [by intros []|]. reflexivity.
  - destruct (Hz is_create) as [-> ->]; [by intros []|]. reflexivity.
  - destruct (Hz is_ShowWindow) as [-> ->]; [by intros []|]. reflexivity.
  - destruct (Hz is_GetLastError) as [-> ->]; [by intros []|]. reflexivity.
Qed.

End Constructed.

(** ** The association after creation *)
Section Frozen.
Context {D : Type}.
Implicit Types (w : World D) (h : Hooks D).

Lemma preserves_invoke_frozen h s ws ss p c :
  hooks_keep_bindings h -> preserves (frozen s ws ss) (invoke h p c).
Proof.
  intros Hk. unfold invoke. apply preserves_get_bind. intros w Hw.
  destruct (shells w !! p); [|done].
  rewrite world_of_bind. simpl. unfold world_of.
  destruct (Hk p c w) as (H1 & H2 & H3).
  destruct (hook_body h p c w) as [o w1]. simpl in *.
  destruct Hw as (? & ? & ?). unfold frozen. by rewrite H1, H2, H3.
Qed.

Ltac preserves_frozen :=
  repeat first
    [ apply preserves_ret | apply preserves_log | apply preserves_stop
    | apply preserves_invoke_frozen; assumption
    | apply preserves_modify; intros ? (? & ? & ?); by repeat split
    | apply preserves_bind; [|intros ?]
    | match goal with
      | |- preserves _ (match ?x with _ => _ end) => destruct x
      | |- preserves _ (if ?x then _ else _) => destruct x
      end ].

Lemma preserves_WndProc_frozen h s ws ss hWnd uMsg wParam lParam :
  hooks_keep_bindings h -> uMsg <> WM_NCCREATE ->
  preserves (frozen s ws ss) (WndProc h hWnd uMsg wParam lParam).
Proof.
  intros Hk Hm. unfold WndProc. apply preserves_bind.
  { intros w Hw. rewrite find_shell_other by done. unfold world_of. simpl.
    destruct (windows w !! hWnd); [done|]. destruct Hw as (? & ? & ?).
    by repeat split. }
  intros p. apply preserves_bind.
  - destruct (p =? NULL); [apply preserves_ret|].
    unfold switch_uMsg, BeginPaint, EndPaint, PostQuitMessage.
    destruct (route uMsg); preserves_frozen.
  - intros [r|]; unfold DefWindowProc; preserves_frozen.
Qed.

(** X15.  The association is written at creation only.  On every message
    other than [WM_NCCREATE] the window procedure never calls
    [SetWindowLongPtr]; and when the hooks leave the bindings alone, the
    window table with its user-data slots, the shells with their members and
    the platform script are after the message what they were before it,
    however the message ends. *)
Theorem association_written_at_creation_only h w hWnd uMsg wParam lParam :
  uMsg <> WM_NCCREATE ->
  let r := WndProc h hWnd uMsg wParam lParam w in
  count is_SetWindowLongPtr (trace_of r) = 0%nat
  /\ (hooks_keep_bindings h ->
      windows (world_of r) = windows w
      /\ shells (world_of r) = shells w
      /\ stubs (world_of r) = stubs w).
Proof.
  intros Hm r. subst r. split.
  - eapply count_zero_of_Forall; [|by apply emits_WndProc_reading].
    intros e He. unfold is_reading_call in He.
    apply andb_true_iff in He as [_ He]. by apply negb_true_iff in He.
  - intros Hk.
    destruct (preserves_WndProc_frozen h (stubs w) (windows w) (shells w)
                hWnd uMsg wParam lParam Hk Hm w) as (? & ? & ?); by repeat split.
Qed.

(** X16.  A shell that overrides nothing, on a message other than
    [WM_NCCREATE] sent to a window associated with it: a message with a case
    label is absorbed (the procedure returns [TRUE] and [DefWindowProc] is
    not called), any other gets exactly the default handling, and the state
    is left as it was except that a close message leaves the quit request
    pending. *)
Theorem WndProc_default_hooks w hWnd uMsg wParam lParam p :
  associated w hWnd p ->
  uMsg <> WM_NCCREATE ->
  let r := WndProc default_hooks hWnd uMsg wParam lParam w in
  (uMsg ∈ routing_set ->
     result_of r = Ret TRUE /\ count is_DefWindowProc (trace_of r) = 0%nat)
  /\ (uMsg ∉ routing_set ->
     result_of r = result_of (DefWindowProc hWnd uMsg wParam lParam w)
     /\ count is_DefWindowProc (trace_of r) = 1%nat)
  /\ (uMsg <> WM_CLOSE -> world_of r = w)
  /\ (uMsg = WM_CLOSE -> world_of r = set_quit_flag (Some 0) w).
Proof.
  intros Ha Hm r. subst r.
  assert (Hplain : forall c, plain_call uMsg wParam lParam = Some c ->
            WndProc default_hooks hWnd uMsg wParam lParam w
            = (Ret TRUE, w, [EvGetWindowLongPtr hWnd GWLP_USERDATA; EvHook p c])).
  { intros c Hc. rewrite (WndProc_plain _ w hWnd uMsg wParam lParam p c) by done.
    by destruct c. }
  destruct (decide (uMsg ∈ routing_set)) as [Hin|Hout].
  - split; [intros _|split; [done|]].
    + unfold routing_set in Hin.
      apply elem_of_cons in Hin as [->|Hin].
      { rewrite (WndProc_associated _ w hWnd WM_PAINT wParam lParam p) by done.
        destruct Ha as (Hw & _ & Hs).
        rewrite switch_paint by (done || by eexists). done. }
      repeat (apply elem_of_cons in Hin as [->|Hin];
        [by erewrite Hplain by reflexivity|]).
      apply elem_of_cons in Hin as [->|Hin]; [|by apply elem_of_nil in Hin].
      rewrite (WndProc_associated _ w hWnd WM_CLOSE wParam lParam p) by done.
      rewrite switch_close by apply Ha. done.
    + split.
      * intros Hc. unfold routing_set in Hin.
        apply elem_of_cons in Hin as [->|Hin].
        { rewrite (WndProc_associated _ w hWnd WM_PAINT wParam lParam p) by done.
          destruct Ha as (Hw & _ & Hs).
          rewrite switch_paint by (done || by eexists).
          unfold world_of. simpl. rewrite Z.eqb_refl. by destruct w. }
        repeat (apply elem_of_cons in Hin as [->|Hin];
          [by erewrite Hplain by reflexivity|]).
        apply elem_of_cons in Hin as [->|Hin]; [done|by apply elem_of_nil in Hin].
      * intros ->.
        rewrite (WndProc_associated _ w hWnd WM_CLOSE wParam lParam p) by done.
        rewrite switch_close by apply Ha. done.
  - assert (E : WndProc default_hooks hWnd uMsg wParam lParam w
              = (Ret (if uMsg =? WM_NCCREATE then TRUE else 0), w,
                 [EvGetWindowLongPtr hWnd GWLP_USERDATA;
                  EvHook p (CallHandleOtherMessages uMsg);
                  EvDefWindowProc hWnd uMsg wParam lParam])).
    { rewrite (WndProc_associated _ w hWnd uMsg wParam lParam p) by done.
      rewrite switch_default by (done || apply Ha). done. }
    rewrite E. split; [done|]. split; [done|]. split; [done|].
    intros ->. exfalso. apply Hout. unfold routing_set. set_solver.
Qed.

(** X17.  The message of an [ApplicationException] determines the error
    code: two constructions with the same description give the same message
    only when the last-error codes they read are the same. *)
Theorem ApplicationException_code_recoverable (lpInfo : string) (w1 w2 : World D) :
  result_of (ApplicationException_ctor lpInfo w1)
  = result_of (ApplicationException_ctor lpInfo w2)
  <-> last_error w1 = last_error w2.
Proof.
  rewrite !ApplicationException_ctor_eq. unfold result_of. simpl. split.
  - intros [= H]. apply String.app_inj in H. apply String.app_inj in H.
    by apply (inj pretty) in H.
  - by intros ->.
Qed.

End Frozen.

(** ** The further theorems on concrete runs *)
Section FurtherRuns.
Import Scenario Cases.

Lemma WndProc_routed_is_final_witness :
  count is_DefWindowProc
    (trace_of (WndProc close_throws the_hwnd WM_KEYUP 0x41 0 (shown stubs_ok)))
  = 0%nat
  /\ count is_hook
       (trace_of (WndProc close_throws the_hwnd WM_CLOSE 0 0 (shown stubs_ok)))
     = 1%nat.
Proof.
  split.
  - refine (proj1 (proj2 (proj2 (WndProc_routed_is_final close_throws
              (shown stubs_ok) the_hwnd WM_KEYUP 0x41 0 the_shell _
              (shown_associated stubs_ok))))).
    repeat constructor.
  - refine (proj1 (WndProc_routed_is_final close_throws
              (shown stubs_ok) the_hwnd WM_CLOSE 0 0 the_shell _
              (shown_associated stubs_ok))).
    repeat constructor.
Defined.

Lemma WndProc_keyboard_witness :
  trace_of (WndProc default_hooks the_hwnd WM_KEYDOWN 0x41 0x1E0001 (shown stubs_ok))
  = [EvGetWindowLongPtr the_hwnd GWLP_USERDATA; EvHook the_shell (CallOnKeyDown 0x41)].
Proof.
  exact (proj1 (WndProc_keyboard default_hooks (shown stubs_ok) the_hwnd 0x41
                  0x1E0001 0 the_shell (shown_associated stubs_ok))).
Defined.

Lemma WndProc_mouse_buttons_witness :
  filter (fun e => is_hook e = true)
    (trace_of (WndProc default_hooks the_hwnd WM_RBUTTONUP 0x0008 0x00640032
                 (shown stubs_ok)))
  = [EvHook the_shell (CallOnMouseButtonUp VK_RBUTTON)].
Proof.
  exact (proj1 (proj2 (proj2 (proj2 (proj2 (proj2
           (WndProc_mouse_buttons default_hooks (shown stubs_ok) the_hwnd
              0x0008 0x00640032 the_shell (shown_associated stubs_ok)))))))).
Defined.

Lemma WndProc_mouse_move_witness :
  GET_X_LPARAM 0xFFFE0005 = 5 /\ GET_Y_LPARAM 0xFFFE0005 = -2.
Proof.
  refine (proj2 (proj2 (proj2 (proj2 (proj2
            (WndProc_mouse_move default_hooks (shown stubs_ok) the_hwnd 0
               0xFFFE0005 the_shell (shown_associated stubs_ok))))))
            5 (-2) 0 _ _ _); [lia | lia | reflexivity].
Defined.

Lemma WndProc_paint_balanced_witness :
  world_of (WndProc default_hooks the_hwnd WM_PAINT 0 0 (shown stubs_ok))
  = shown stubs_ok.
Proof.
  exact (proj2 (proj2 (WndProc_paint_balanced default_hooks (shown stubs_ok)
                         the_hwnd 0 0 the_shell _ (shown_associated stubs_ok)
                         eq_refl eq_refl))).
Defined.

Lemma WndProc_NCCREATE_then_hook_witness :
  trace_of (WndProc handles_all the_hwnd WM_NCCREATE 0 0x7000 (creating the_shell))
  = [EvSetWindowLongPtr the_hwnd GWLP_USERDATA the_shell;
     EvHook the_shell (CallHandleOtherMessages WM_NCCREATE)]
  /\ trace_of (WndProc default_hooks the_hwnd WM_NCCREATE 0 0x7000 (creating the_shell))
  = [EvSetWindowLongPtr the_hwnd GWLP_USERDATA the_shell;
     EvHook the_shell (CallHandleOtherMessages WM_NCCREATE);
     EvDefWindowProc the_hwnd WM_NCCREATE 0 0x7000].
Proof.
  split.
  - refine (proj1 (proj1 (proj2 (proj2 (WndProc_NCCREATE_then_hook handles_all
              (creating the_shell) the_hwnd 0 0x7000 NULL (creation_struct the_shell)
              the_shell _ eq_refl eq_refl eq_refl _ eq_refl))) _));
      discriminate.
  - refine (proj1 (proj2 (proj2 (proj2 (WndProc_NCCREATE_then_hook default_hooks
              (creating the_shell) the_hwnd 0 0x7000 NULL (creation_struct the_shell)
              the_shell _ eq_refl eq_refl eq_refl _ eq_refl))) eq_refl)).
    discriminate.
Defined.

Lemma WndProc_NCCREATE_without_shell_witness :
  result_of (WndProc default_hooks the_hwnd WM_NCCREATE 0 0x7000 (creating NULL))
  = Halt (InvalidPointer NULL).
Proof.
  exact (proj1 (WndProc_NCCREATE_without_shell default_hooks (creating NULL)
                  the_hwnd 0 0x7000 NULL (creation_struct NULL) NULL
                  eq_refl eq_refl eq_refl eq_refl)).
Defined.

Lemma PollMessage_takes_oldest_witness :
  trace_of (PollMessage default_hooks queued)
  = [EvPeekMessageW NULL 0 0 PM_REMOVE; EvTranslateMessage key_message;
     EvDispatchMessageW key_message; EvWndProc the_hwnd WM_KEYDOWN 0x41 0;
     EvGetWindowLongPtr the_hwnd GWLP_USERDATA;
     EvHook the_shell (CallOnKeyDown 0x41)]
  /\ queue (world_of (PollMessage default_hooks queued)) = [move_message].
Proof.
  pose proof (PollMessage_takes_oldest default_hooks queued key_message
                [move_message] eq_refl) as (Ht & _ & Hw).
  split; [exact Ht | by rewrite Hw].
Defined.

Lemma pumps_agree_when_pending_witness :
  world_of (WaitMessage default_hooks queued)
  = world_of (PollMessage default_hooks queued).
Proof.
  refine (proj1 (proj2 (pumps_agree_when_pending default_hooks queued eq_refl _))).
  intros [H _]. discriminate H.
Defined.

Lemma close_then_WaitMessage_witness :
  result_of ((WndProc default_hooks the_hwnd WM_CLOSE 0 0;;;
              WaitMessage default_hooks;;; WaitMessage default_hooks)
               (shown stubs_ok))
  = Halt BlockedForever.
Proof.
  exact (proj2 (proj2 (close_then_WaitMessage default_hooks (shown stubs_ok)
                         the_hwnd 0 0 the_shell (shown stubs_ok)
                         (shown_associated stubs_ok) eq_refl eq_refl eq_refl
                         eq_refl))).
Defined.

Lemma ctor_creation_fails_witness :
  result_of (Application_ctor handles_all the_shell "Demo" 640 480 0 0
               WS_OVERLAPPEDWINDOW WS_EX_COMPOSITED (before stubs_no_window))
  = Throw (ApplicationException
             "Failed to create a window (CreateWindowEx) | Error code : 1407").
Proof.
  exact (proj1 (ctor_creation_fails handles_all the_shell "Demo" 640 480 0 0
                  WS_OVERLAPPEDWINDOW WS_EX_COMPOSITED (before stubs_no_window)
                  0xC001 eq_refl eq_refl)).
Defined.

Lemma ctor_call_sequence_witness :
  count is_ShowWindow (trace_of demo_run) = 1%nat
  /\ count is_GetLastError (trace_of demo_run) = 0%nat.
Proof.
  destruct (ctor_call_sequence default_hooks the_shell "Demo"
              CW_USEDEFAULT CW_USEDEFAULT CW_USEDEFAULT CW_USEDEFAULT
              WS_OVERLAPPEDWINDOW WS_EX_COMPOSITED (before stubs_ok)
              (world_of demo_run) (trace_of demo_run) (proj1 demo_run_returns))
    as (hWnd & rest & tc & ts & _ & _ & _ & _ & _ & _ & _ & Hs & Hg).
  split; [exact Hs | exact Hg].
Defined.

Lemma association_written_at_creation_only_witness :
  windows (world_of (WndProc default_hooks the_hwnd WM_CLOSE 0 0 (shown stubs_ok)))
  = windows (shown stubs_ok).
Proof.
  refine (proj1 (proj2 (association_written_at_creation_only default_hooks
                          (shown stubs_ok) the_hwnd WM_CLOSE 0 0 _)
                   default_hooks_keep_bindings)).
  discriminate.
Defined.

Lemma WndProc_default_hooks_witness :
  world_of (WndProc default_hooks the_hwnd WM_CLOSE 0 0 (shown stubs_ok)) = quitting
  /\ world_of (WndProc default_hooks the_hwnd WM_PAINT 0 0 (shown stubs_ok))
     = shown stubs_ok.
Proof.
  split.
  - refine (proj2 (proj2 (proj2 (WndProc_default_hooks (shown stubs_ok) the_hwnd
              WM_CLOSE 0 0 the_shell (shown_associated stubs_ok) _))) eq_refl).
    discriminate.
  - refine (proj1 (proj2 (proj2 (WndProc_default_hooks (shown stubs_ok) the_hwnd
              WM_PAINT 0 0 the_shell (shown_associated stubs_ok) _))) _);
      discriminate.
Defined.

End FurtherRuns.

(** ** Construction succeeds when the platform does *)
Section Succeeds.
Context {D : Type}.
Implicit Types (w : World D) (h : Hooks D).





End Succeeds.

(** ** The creation notification and construction on concrete runs *)
Section CreationRuns.
Import Scenario Cases.

(** C6: a [WM_NCCREATE] sent to the shown example window has no case label,
    yet does not reach [HandleOtherMessages]: the shell is looked for in the
    creation parameters, which are missing, not in the association. *)
Lemma NCCREATE_misses_HandleOtherMessages :
  ~ other_message_reaches_hook handles_all (shown stubs_ok) the_hwnd
      WM_NCCREATE 0 0 the_shell.
Proof.
  intros H.
  assert (Hout : WM_NCCREATE ∉ routing_set) by (apply route_default_iff; reflexivity).
  specialize (H Hout (shown_associated stubs_ok)).
  vm_compute in H. discriminate H.
Defined.


End CreationRuns.
